(** * PolyLOL core: pair-position arithmetic, truth engine, trading engine

    A shallow embedding of [src/domain/types.py],
    [src/domain/engines/truth_engine.py] and
    [src/domain/engines/trading_engine.py], and the properties of the
    specification that concern them.

    Conventions of the embedding:
    - a Python [float] is a binary64 value of [PrimFloat]; comparisons and
      arithmetic are the IEEE ones Python uses, [min] and [abs] are written
      out the way the interpreter evaluates them;
    - a Python [int] is a [Z];
    - an exception is the [Raise] alternative of [result]; a method that
      mutates its receiver returns the receiver after the call next to its
      outcome, so that a raise still says what happened to the object;
    - a reading of the wall clock ([datetime.now]) is an explicit argument
      [now] of the operation that reads it;
    - log calls have no effect on any value and are left out. *)

From Stdlib Require Import Floats ZArith List Bool.
From stdpp Require Import base option gmap strings pretty.
Import ListNotations.

Set Warnings "-inexact-float".
Local Open Scope Z_scope.

(** ** Python primitives *)

Module Py.

Inductive exn : Type :=
| ValueError
| ZeroDivisionError.

Inductive result (A : Type) : Type :=
| Ok (a : A)
| Raise (e : exn).
Arguments Ok {A} a.
Arguments Raise {A} e.

Definition bind {A B : Type} (k : A -> result B) (r : result A) : result B :=
  match r with
  | Ok a => k a
  | Raise e => Raise e
  end.

(** [a <= b], [a < b], [a >= b], [a > b], [a == b] on floats. *)
Definition le (a b : float) : bool := PrimFloat.leb a b.
Definition lt (a b : float) : bool := PrimFloat.ltb a b.
Definition ge (a b : float) : bool := PrimFloat.leb b a.
Definition gt (a b : float) : bool := PrimFloat.ltb b a.
Definition eq (a b : float) : bool := PrimFloat.eqb a b.

(** [min(a, b)]: the first argument is kept unless the second compares
    strictly below it. *)
Definition min (a b : float) : float := if lt b a then b else a.

(** [a / b] on floats: a zero divisor raises. *)
Definition truediv (a b : float) : result float :=
  if eq b 0%float then Raise ZeroDivisionError else Ok (PrimFloat.div a b).

(** [float("inf")] *)
Definition inf : float := PrimFloat.infinity.

(** Truth value of a [str]: the empty string is false. *)
Definition str_truthy (s : string) : bool := negb (String.eqb s "").

End Py.

#[global] Instance result_bind : MBind Py.result := @Py.bind.
#[global] Instance result_ret : MRet Py.result := @Py.Ok.

(** ** [src/domain/types.py] *)

Module Types.
Import Py.
Local Open Scope float_scope.

Inductive Side : Type := YES | NO.

Definition Side_eqb (a b : Side) : bool :=
  match a, b with
  | YES, YES | NO, NO => true
  | _, _ => false
  end.

Inductive TruthStatus : Type :=
| PRE_MATCH | LIVE | PAUSED | PENDING_CONFIRM | FINAL.

Inductive TradingStatus : Type :=
| IDLE | BUILDING_PAIR | LOCKED_PAIR | TEMPORAL_ACTIVE
| FINALIZING | RESOLVED | HALT.

Inductive OrderStatus : Type :=
| PENDING | PLACED | MATCHED | MINED
| CONFIRMED | REJECTED | CANCELLED | FAILED.

Inductive FillType : Type := FULL | PARTIAL.

Inductive MatchEventType : Type :=
| MATCH_CREATED | MATCH_STARTED | EV_PAUSED | RESUMED | MAP_STARTED
| ROUND_ENDED | MAP_ENDED | SCORE_UPDATE | MATCH_ENDED | CORRECTION.

Inductive DataSourceTier : Type := TIER_A | TIER_B | TIER_C.

(** *** Fill and PairPosition *)

Record Fill : Type := mkFill {
  fill_side : Side;
  fill_qty : float;
  fill_price : float;
  fill_ts_ms : Z;
  fill_type : FillType;
  fill_order_id : option string
}.

(** [Fill(side=..., qty=..., price=...)] with the defaults of the class. *)
Definition Fill_of (side : Side) (qty price : float) : Fill :=
  mkFill side qty price 0%Z FULL None.

Record PairPosition : Type := mkPairPosition {
  market_id : string;
  fee_rate : float;
  q_yes : float;
  q_no : float;
  c_yes : float;
  c_no : float;
  first_fill_at : option Z;
  last_fill_at : option Z
}.

(** [PairPosition(market_id=..., fee_rate=...)] *)
Definition PairPosition_new (mid : string) (fee : float) : PairPosition :=
  mkPairPosition mid fee 0 0 0 0 None None.

(** [PairPosition.apply_fill]: the receiver after the call, and whether
    the call returned or raised. *)
Definition apply_fill (self : PairPosition) (fill : Fill) (now : Z)
  : PairPosition * result unit :=
  if le (fill_qty fill) 0 then (self, Ok tt)
  else if negb (le 0 (fill_price fill) && le (fill_price fill) 1)
  then (self, Raise ValueError)
  else
    let first :=
      match first_fill_at self with
      | None => Some now
      | Some t => Some t
      end in
    match fill_side fill with
    | YES =>
        (mkPairPosition (market_id self) (fee_rate self)
           (q_yes self + fill_qty fill) (q_no self)
           (c_yes self + fill_qty fill * fill_price fill) (c_no self)
           first (Some now), Ok tt)
    | NO =>
        (mkPairPosition (market_id self) (fee_rate self)
           (q_yes self) (q_no self + fill_qty fill)
           (c_yes self) (c_no self + fill_qty fill * fill_price fill)
           first (Some now), Ok tt)
    end.

Definition total_cost (self : PairPosition) : float :=
  c_yes self + c_no self.

Definition q_min (self : PairPosition) : float :=
  min (q_yes self) (q_no self).

Definition payout_net (self : PairPosition) : float :=
  q_min self * (1 - fee_rate self).

Definition guaranteed_pnl (self : PairPosition) : float :=
  payout_net self - total_cost self.

(** In [avg_yes] and [avg_no] the guard [q <= 0] holds for both zeros,
    so the division that follows never has a zero divisor (lemma
    [not_le_zero_nonzero] below) and is the IEEE division. *)
Definition avg_yes (self : PairPosition) : option float :=
  if le (q_yes self) 0 then None else Some (c_yes self / q_yes self).

Definition avg_no (self : PairPosition) : option float :=
  if le (q_no self) 0 then None else Some (c_no self / q_no self).

Definition pair_cost_avg (self : PairPosition) : option float :=
  match avg_yes self, avg_no self with
  | Some ay, Some an => Some (ay + an)
  | _, _ => None
  end.

Definition leg_imbalance_usdc (self : PairPosition) : float :=
  PrimFloat.abs (c_yes self - c_no self).

Definition leg_imbalance_shares (self : PairPosition) : float :=
  PrimFloat.abs (q_yes self - q_no self).

Definition copy (self : PairPosition) : PairPosition :=
  mkPairPosition (market_id self) (fee_rate self)
    (q_yes self) (q_no self) (c_yes self) (c_no self)
    (first_fill_at self) (last_fill_at self).

(** [PairPosition.hypo_buy]: works on a copy, so the receiver is not part
    of the result; the guard [price <= 0] keeps the divisor non-zero. *)
Definition hypo_buy (self : PairPosition) (side : Side)
    (usdc_amount price : float) (now : Z) : result PairPosition :=
  if le usdc_amount 0 || le price 0 then Ok (copy self)
  else
    let qty := usdc_amount / price in
    let new_pos := copy self in
    match apply_fill new_pos (Fill_of side qty price) now with
    | (new_pos', Ok _) => Ok new_pos'
    | (_, Raise e) => Raise e
    end.

(** [should_buy_more] *)
Definition should_buy_more (pos : PairPosition) (side : Side)
    (usdc_amount price : float)
    (pair_cost_cap max_total_cost max_leg_imbalance_usdc : float)
    (require_improve : bool) (now : Z) : result (bool * string) :=
  if le usdc_amount 0 then Ok (false, "zero_amount")
  else if gt (total_cost pos + usdc_amount) max_total_cost
  then Ok (false, "exceeds_max_total")
  else
    new_pos ← hypo_buy pos side usdc_amount price now;
    let pc := pair_cost_avg new_pos in
    let net_cap := 1 - fee_rate new_pos in
    if match pc with Some c => ge c net_cap | None => false end
    then Ok (false, "pair_cost_exceeds_net")
    else if match pc with Some c => ge c pair_cost_cap | None => false end
    then Ok (false, "pair_cost_exceeds_cap")
    else if gt (leg_imbalance_usdc new_pos) max_leg_imbalance_usdc
    then Ok (false, "leg_imbalance")
    else if require_improve
            && le (guaranteed_pnl new_pos) (guaranteed_pnl pos)
    then Ok (false, "no_pnl_improvement")
    else Ok (true, "approved").

(** *** Orders and intents *)

(** The [uuid4] defaults ([id], [idempotency_key]) are supplied by the
    caller; the lifecycle timestamps of [Order] are never read or written
    by the engines and are left out. *)
Record Order : Type := mkOrder {
  order_id : string;
  order_market_id : string;
  order_token_id : string;
  order_side : Side;
  order_price : float;
  order_size : float;
  order_status : OrderStatus;
  order_filled_size : float;
  order_avg_fill_price : option float;
  order_error_message : option string;
  order_reject_reason : option string
}.

(** [OrderIntent]: [reason] is [f"pair_cost_avg={...}"] in the source;
    the formatted value is kept unformatted. *)
Record OrderIntent : Type := mkOrderIntent {
  intent_market_id : string;
  intent_side : Side;
  intent_price : float;
  intent_size : float;
  intent_strategy : string;
  intent_reason_pair_cost_avg : option float
}.

Record CancelIntent : Type := mkCancelIntent {
  cancel_order_id : string;
  cancel_market_id : string;
  cancel_reason : string
}.

(** *** Order book *)

Record OrderBookLevel : Type := mkLevel {
  level_price : float;
  level_size : float
}.

Record OrderBook : Type := mkOrderBook {
  token_id : string;
  bids : list OrderBookLevel;
  asks : list OrderBookLevel;
  book_timestamp_ms : Z
}.

Definition best_bid (self : OrderBook) : option float :=
  match bids self with
  | l :: _ => Some (level_price l)
  | [] => None
  end.

Definition best_ask (self : OrderBook) : option float :=
  match asks self with
  | l :: _ => Some (level_price l)
  | [] => None
  end.

(** The [for level in levels] loop of [effective_price_for_size], with
    its three accumulators; [break] is the return of the accumulators. *)
Fixpoint walk_levels (levels : list OrderBookLevel)
    (remaining total_cost total_qty : float)
  : result (float * float * float) :=
  match levels with
  | [] => Ok (remaining, total_cost, total_qty)
  | level :: rest =>
      let max_usdc_at_level := level_size level * level_price level in
      let usdc_at_level := min remaining max_usdc_at_level in
      qty_at_level ← truediv usdc_at_level (level_price level);
      let total_cost' := total_cost + usdc_at_level in
      let total_qty' := total_qty + qty_at_level in
      let remaining' := remaining - usdc_at_level in
      if le remaining' 0 then Ok (remaining', total_cost', total_qty')
      else walk_levels rest remaining' total_cost' total_qty'
  end.

(** [OrderBook.effective_price_for_size]; the guard [total_qty == 0]
    keeps the last divisor non-zero. *)
Definition effective_price_for_size (self : OrderBook) (side : Side)
    (size_usdc : float) : result float :=
  let levels := if Side_eqb side YES then asks self else bids self in
  '(_, total_cost, total_qty) ← walk_levels levels size_usdc 0 0;
  if eq total_qty 0 then Ok inf
  else Ok (total_cost / total_qty).


(** [OrderBook.mid_price]: the divisor is the literal 2. *)
Definition mid_price (self : OrderBook) : option float :=
  match best_bid self, best_ask self with
  | Some bid, Some ask => Some ((bid + ask) / 2)
  | _, _ => None
  end.

(** [OrderBook.spread_bps]: [(best_ask - best_bid) / mid * 10000], with
    Python's division. *)
Definition spread_bps (self : OrderBook) : result (option float) :=
  match best_bid self, best_ask self with
  | Some bid, Some ask =>
      match mid_price self with
      | None => Ok None
      | Some mid =>
          if eq mid 0 then Ok None
          else
            ratio ← truediv (ask - bid) mid;
            Ok (Some (ratio * 10000))
      end
  | _, _ => Ok None
  end.

End Types.

(** ** [src/domain/engines/truth_engine.py] *)

Module Truth.
Import Py Types.
Local Open Scope float_scope.

(** Values found in an event payload ([dict[str, Any]]): the engine only
    stores them, compares them with [==] and tests their truth value.
    The model has [None], strings and integers, on which [==] is
    structural equality. *)
Inductive pyval : Type :=
| PNone
| PStr (s : string)
| PInt (n : Z).

#[global] Instance pyval_eq_dec : EqDecision pyval.
Proof. solve_decision. Defined.

Definition pyval_truthy (v : pyval) : bool :=
  match v with
  | PNone => false
  | PStr s => str_truthy s
  | PInt n => negb (n =? 0)%Z
  end.

(** [payload.get(key)] and [payload.get(key, default)] *)
Definition payload_get (p : gmap string pyval) (key : string) : pyval :=
  default PNone (p !! key).

Definition payload_get_or (p : gmap string pyval) (key : string)
    (d : pyval) : pyval :=
  default d (p !! key).

(** [MatchEvent]; [event_id] and [market_id] of the base class are not
    read by the engine and are left out. *)
Record MatchEvent : Type := mkMatchEvent {
  timestamp_ms : Z;
  ev_match_id : string;
  event_type : MatchEventType;
  source : string;
  source_tier : DataSourceTier;
  payload : gmap string pyval;
  source_event_id : option string;
  seq : option Z
}.

(** The [old_value] and [new_value] of a delta ([Any]): a status name, a
    payload value, a score pair, or the dictionary of a finished map. *)
Inductive pyany : Type :=
| ANone
| AStr (s : string)
| AVal (v : pyval)
| APair (a b : pyval)
| AMapEnded (map_index winner : pyval).

(** [TruthDelta] and [TruthFinal], without the [event_id] and
    [timestamp_ms] defaults of the base class. *)
Record TruthDelta : Type := mkTruthDelta {
  delta_match_id : string;
  delta_type : string;
  old_value : pyany;
  new_value : pyany;
  delta_confidence : float;
  sources : list string;
  reason : option string
}.

Record TruthFinal : Type := mkTruthFinal {
  final_match_id : string;
  final_winner_team_id : pyval;
  final_confidence : float;
  confirmed_by : list string;
  final_finalized_at_ms : Z
}.

Inductive Signal : Type :=
| Delta (d : TruthDelta)
| Final (f : TruthFinal).

(** [TruthEngineConfig] of [src/bot/settings.py] *)
Record TruthEngineConfig : Type := mkTruthEngineConfig {
  confirm_threshold : float;
  max_wait_ms : Z;
  required_sources_for_final : Z;
  allowed_skew_ms : Z;
  tier_a_sources : list string;
  tier_b_sources : list string;
  tier_c_sources : list string
}.

Definition default_config : TruthEngineConfig :=
  mkTruthEngineConfig 0.90 10000 2 2000
    ["grid"; "official"] ["pandascore"; "opendota"] ["liquipedia"].

(** [TruthState] of [src/domain/types.py]; the fields assigned from a
    payload hold payload values. *)
Record TruthState : Type := mkTruthState {
  match_id : string;
  status : TruthStatus;
  team_a_id : string;
  team_b_id : string;
  score_a : pyval;
  score_b : pyval;
  map_index : pyval;
  round_index : pyval;
  confidence : float;
  winner_team_id : pyval;
  last_event_ms : Z;
  ended_at_ms : option Z;
  finalized_at_ms : option Z;
  seen_event_ids : gset string;
  last_seq : option Z;
  sources_confirming : gset string
}.

(** Field assignments [self._state.f = v]. *)
Definition set_status (v : TruthStatus) (self : TruthState) : TruthState :=
  mkTruthState (match_id self) v (team_a_id self) (team_b_id self)
    (score_a self) (score_b self) (map_index self) (round_index self)
    (confidence self) (winner_team_id self) (last_event_ms self)
    (ended_at_ms self) (finalized_at_ms self) (seen_event_ids self)
    (last_seq self) (sources_confirming self).

Definition set_score_a (v : pyval) (self : TruthState) : TruthState :=
  mkTruthState (match_id self) (status self) (team_a_id self)
    (team_b_id self) v (score_b self) (map_index self) (round_index self)
    (confidence self) (winner_team_id self) (last_event_ms self)
    (ended_at_ms self) (finalized_at_ms self) (seen_event_ids self)
    (last_seq self) (sources_confirming self).

Definition set_score_b (v : pyval) (self : TruthState) : TruthState :=
  mkTruthState (match_id self) (status self) (team_a_id self)
    (team_b_id self) (score_a self) v (map_index self) (round_index self)
    (confidence self) (winner_team_id self) (last_event_ms self)
    (ended_at_ms self) (finalized_at_ms self) (seen_event_ids self)
    (last_seq self) (sources_confirming self).

Definition set_map_index (v : pyval) (self : TruthState) : TruthState :=
  mkTruthState (match_id self) (status self) (team_a_id self)
    (team_b_id self) (score_a self) (score_b self) v (round_index self)
    (confidence self) (winner_team_id self) (last_event_ms self)
    (ended_at_ms self) (finalized_at_ms self) (seen_event_ids self)
    (last_seq self) (sources_confirming self).

Definition set_round_index (v : pyval) (self : TruthState) : TruthState :=
  mkTruthState (match_id self) (status self) (team_a_id self)
    (team_b_id self) (score_a self) (score_b self) (map_index self) v
    (confidence self) (winner_team_id self) (last_event_ms self)
    (ended_at_ms self) (finalized_at_ms self) (seen_event_ids self)
    (last_seq self) (sources_confirming self).

Definition set_confidence (v : float) (self : TruthState) : TruthState :=
  mkTruthState (match_id self) (status self) (team_a_id self)
    (team_b_id self) (score_a self) (score_b self) (map_index self)
    (round_index self) v (winner_team_id self) (last_event_ms self)
    (ended_at_ms self) (finalized_at_ms self) (seen_event_ids self)
    (last_seq self) (sources_confirming self).

Definition set_winner_team_id (v : pyval) (self : TruthState) : TruthState :=
  mkTruthState (match_id self) (status self) (team_a_id self)
    (team_b_id self) (score_a self) (score_b self) (map_index self)
    (round_index self) (confidence self) v (last_event_ms self)
    (ended_at_ms self) (finalized_at_ms self) (seen_event_ids self)
    (last_seq self) (sources_confirming self).

Definition set_last_event_ms (v : Z) (self : TruthState) : TruthState :=
  mkTruthState (match_id self) (status self) (team_a_id self)
    (team_b_id self) (score_a self) (score_b self) (map_index self)
    (round_index self) (confidence self) (winner_team_id self) v
    (ended_at_ms self) (finalized_at_ms self) (seen_event_ids self)
    (last_seq self) (sources_confirming self).

Definition set_ended_at_ms (v : option Z) (self : TruthState) : TruthState :=
  mkTruthState (match_id self) (status self) (team_a_id self)
    (team_b_id self) (score_a self) (score_b self) (map_index self)
    (round_index self) (confidence self) (winner_team_id self)
    (last_event_ms self) v (finalized_at_ms self) (seen_event_ids self)
    (last_seq self) (sources_confirming self).

Definition set_finalized_at_ms (v : option Z) (self : TruthState) : TruthState :=
  mkTruthState (match_id self) (status self) (team_a_id self)
    (team_b_id self) (score_a self) (score_b self) (map_index self)
    (round_index self) (confidence self) (winner_team_id self)
    (last_event_ms self) (ended_at_ms self) v (seen_event_ids self)
    (last_seq self) (sources_confirming self).

Definition set_seen_event_ids (v : gset string) (self : TruthState) : TruthState :=
  mkTruthState (match_id self) (status self) (team_a_id self)
    (team_b_id self) (score_a self) (score_b self) (map_index self)
    (round_index self) (confidence self) (winner_team_id self)
    (last_event_ms self) (ended_at_ms self) (finalized_at_ms self) v
    (last_seq self) (sources_confirming self).

Definition set_last_seq (v : option Z) (self : TruthState) : TruthState :=
  mkTruthState (match_id self) (status self) (team_a_id self)
    (team_b_id self) (score_a self) (score_b self) (map_index self)
    (round_index self) (confidence self) (winner_team_id self)
    (last_event_ms self) (ended_at_ms self) (finalized_at_ms self)
    (seen_event_ids self) v (sources_confirming self).

Definition set_sources_confirming (v : gset string) (self : TruthState) : TruthState :=
  mkTruthState (match_id self) (status self) (team_a_id self)
    (team_b_id self) (score_a self) (score_b self) (map_index self)
    (round_index self) (confidence self) (winner_team_id self)
    (last_event_ms self) (ended_at_ms self) (finalized_at_ms self)
    (seen_event_ids self) (last_seq self) v.

Record TruthEngine : Type := mkTruthEngine {
  _config : TruthEngineConfig;
  _state : TruthState
}.

Definition with_state (self : TruthEngine) (st : TruthState) : TruthEngine :=
  mkTruthEngine (_config self) st.

(** [TruthEngine.__init__] *)
Definition TruthEngine_new (mid team_a team_b : string)
    (config : TruthEngineConfig) : TruthEngine :=
  mkTruthEngine config
    (mkTruthState mid PRE_MATCH team_a team_b (PInt 0) (PInt 0) (PInt 0)
       (PInt 0) 0 PNone 0%Z None None ∅ None ∅).

Definition is_final (self : TruthEngine) : bool :=
  match status (_state self) with FINAL => true | _ => false end.

Definition is_effectively_final (self : TruthEngine) : bool :=
  match status (_state self) with
  | PENDING_CONFIRM | FINAL => ge (confidence (_state self)) 0.85
  | _ => false
  end.

Definition winner_if_final (self : TruthEngine) : pyval :=
  if is_effectively_final self then winner_team_id (_state self)
  else PNone.

Section Engine.

(** [_hash_event] is the first 16 hexadecimal digits of the SHA-256 of
    [f"{event_type.value}:{timestamp_ms}:{json.dumps(payload,
    sort_keys=True)}"]: a function of these three fields, taken as a
    parameter. *)
Variable hash_event : MatchEventType -> Z -> gmap string pyval -> string.

Definition _hash_event (event : MatchEvent) : string :=
  hash_event (event_type event) (timestamp_ms event) (payload event).

(** [_is_duplicate]: records the identifier of an event it has not
    seen. *)
Definition _is_duplicate (self : TruthEngine) (event : MatchEvent)
  : TruthEngine * bool :=
  let st := _state self in
  match source_event_id event with
  | Some id =>
      if str_truthy id then
        if bool_decide (id ∈ seen_event_ids st) then (self, true)
        else (with_state self
                (set_seen_event_ids (seen_event_ids st ∪ {[id]}) st),
              false)
      else
        let event_hash := _hash_event event in
        if bool_decide (event_hash ∈ seen_event_ids st) then (self, true)
        else (with_state self
                (set_seen_event_ids (seen_event_ids st ∪ {[event_hash]}) st),
              false)
  | None =>
      let event_hash := _hash_event event in
      if bool_decide (event_hash ∈ seen_event_ids st) then (self, true)
      else (with_state self
              (set_seen_event_ids (seen_event_ids st ∪ {[event_hash]}) st),
            false)
  end.

Definition _is_out_of_order (self : TruthEngine) (event : MatchEvent)
  : TruthEngine * bool :=
  let st := _state self in
  match seq event, last_seq st with
  | Some s, Some l =>
      if (s <=? l)%Z then (self, true)
      else (with_state self (set_last_seq (Some s) st), false)
  | _, _ =>
      if (timestamp_ms event
          <? last_event_ms st - allowed_skew_ms (_config self))%Z
      then (self, true)
      else (self, false)
  end.

Definition status_delta (self : TruthEngine) (old new : string)
    (event : MatchEvent) : TruthDelta :=
  mkTruthDelta (match_id (_state self)) "status" (AStr old) (AStr new)
    0 [source event] None.

Definition _on_event_pre_match (self : TruthEngine) (event : MatchEvent)
  : TruthEngine * option Signal :=
  match event_type event with
  | MATCH_STARTED =>
      let self' := with_state self (set_status LIVE (_state self)) in
      (self', Some (Delta (status_delta self' "PRE_MATCH" "LIVE" event)))
  | EV_PAUSED =>
      let self' := with_state self (set_status PAUSED (_state self)) in
      (self', Some (Delta (status_delta self' "PRE_MATCH" "PAUSED" event)))
  | _ => (self, None)
  end.

Definition _enter_pending_confirm (self : TruthEngine)
    (event : MatchEvent) : TruthEngine * TruthDelta :=
  let st := _state self in
  let st := set_status PENDING_CONFIRM st in
  let st := set_winner_team_id
              (payload_get (payload event) "winner_team_id") st in
  let st := set_ended_at_ms (Some (timestamp_ms event)) st in
  let st := set_sources_confirming {[source event]} st in
  let st :=
    match source_tier event with
    | TIER_A => set_confidence 0.90 st
    | TIER_B => set_confidence 0.80 st
    | TIER_C => set_confidence 0.70 st
    end in
  (with_state self st,
   mkTruthDelta (match_id st) "status" (AStr "LIVE")
     (AStr "PENDING_CONFIRM") (confidence st) [source event] None).

Definition _on_event_live (self : TruthEngine) (event : MatchEvent)
  : TruthEngine * option Signal :=
  let st := _state self in
  match event_type event with
  | EV_PAUSED =>
      let self' := with_state self (set_status PAUSED st) in
      (self', Some (Delta (status_delta self' "LIVE" "PAUSED" event)))
  | SCORE_UPDATE =>
      let old_score := (score_a st, score_b st) in
      let st1 := set_score_a
                   (payload_get_or (payload event) "team_a_score"
                      (score_a st)) st in
      let st2 := set_score_b
                   (payload_get_or (payload event) "team_b_score"
                      (score_b st1)) st1 in
      let new_score := (score_a st2, score_b st2) in
      if bool_decide (old_score ≠ new_score) then
        (with_state self st2,
         Some (Delta (mkTruthDelta (match_id st2) "score"
                        (APair (fst old_score) (snd old_score))
                        (APair (fst new_score) (snd new_score))
                        0 [source event] None)))
      else (with_state self st2, None)
  | ROUND_ENDED =>
      let st1 := set_round_index
                   (payload_get_or (payload event) "round_index"
                      (round_index st)) st in
      let winner := payload_get (payload event) "winner_team_id" in
      (with_state self st1,
       Some (Delta (mkTruthDelta (match_id st1) "round" ANone
                      (AVal winner) 0.6 [source event] None)))
  | MAP_ENDED =>
      let old_map := map_index st in
      let st1 := set_map_index
                   (payload_get_or (payload event) "map_index"
                      (map_index st)) st in
      let winner := payload_get (payload event) "winner_team_id" in
      (with_state self st1,
       Some (Delta (mkTruthDelta (match_id st1) "map" (AVal old_map)
                      (AMapEnded (map_index st1) winner)
                      0.75 [source event] None)))
  | MATCH_ENDED =>
      let '(self', d) := _enter_pending_confirm self event in
      (self', Some (Delta d))
  | _ => (self, None)
  end.

Definition _on_event_paused (self : TruthEngine) (event : MatchEvent)
  : TruthEngine * option Signal :=
  match event_type event with
  | RESUMED =>
      let self' := with_state self (set_status LIVE (_state self)) in
      (self', Some (Delta (status_delta self' "PAUSED" "LIVE" event)))
  | MATCH_ENDED =>
      let '(self', d) := _enter_pending_confirm self event in
      (self', Some (Delta d))
  | _ => (self, None)
  end.

Definition _add_confirmation (self : TruthEngine) (src : string)
    (tier : DataSourceTier) : TruthEngine :=
  let st := _state self in
  if bool_decide (src ∈ sources_confirming st) then self
  else
    let st := set_sources_confirming (sources_confirming st ∪ {[src]}) st in
    let st :=
      match tier with
      | TIER_A => set_confidence (min 1.0 (confidence st + 0.10)) st
      | TIER_B => set_confidence (min 0.95 (confidence st + 0.08)) st
      | TIER_C => set_confidence (min 0.90 (confidence st + 0.03)) st
      end in
    with_state self st.

Definition _should_finalize (self : TruthEngine) : bool :=
  let st := _state self in
  if ge (confidence st) (confirm_threshold (_config self)) then true
  else if existsb
            (fun s => bool_decide (s ∈ tier_a_sources (_config self)))
            (elements (sources_confirming st))
  then true
  else if (Z.of_nat (size (sources_confirming st))
           >=? required_sources_for_final (_config self))%Z
  then true
  else false.

(** [_finalize]; [now] is the wall clock in milliseconds, [list(set)]
    is the enumeration of the set. *)
Definition _finalize (self : TruthEngine) (now : Z)
  : TruthEngine * TruthFinal :=
  let st := set_status FINAL (_state self) in
  let st := set_finalized_at_ms (Some now) st in
  (with_state self st,
   mkTruthFinal (match_id st)
     (if pyval_truthy (winner_team_id st) then winner_team_id st
      else PStr "")
     (confidence st) (elements (sources_confirming st)) now).

Definition _on_event_pending (self : TruthEngine) (event : MatchEvent)
    (now : Z) : TruthEngine * option Signal :=
  match event_type event with
  | MATCH_ENDED =>
      let winner := payload_get (payload event) "winner_team_id" in
      if bool_decide (winner = winner_team_id (_state self)) then
        let self1 :=
          _add_confirmation self (source event) (source_tier event) in
        if _should_finalize self1 then
          let '(self2, f) := _finalize self1 now in
          (self2, Some (Final f))
        else (self1, None)
      else
        let st := _state self in
        let st := set_status LIVE st in
        let st := set_winner_team_id PNone st in
        let st := set_confidence 0.0 st in
        let st := set_sources_confirming ∅ st in
        let st := set_ended_at_ms None st in
        (with_state self st,
         Some (Delta (mkTruthDelta (match_id st) "status"
                        (AStr "PENDING_CONFIRM") (AStr "LIVE")
                        0 [source event] (Some "contradiction"))))
  | _ => (self, None)
  end.

(** [_on_event_final] only logs. *)
Definition _on_event_final (self : TruthEngine) (event : MatchEvent)
  : TruthEngine := self.

Definition on_event (self : TruthEngine) (event : MatchEvent) (now : Z)
  : TruthEngine * option Signal :=
  let '(self, dup) := _is_duplicate self event in
  if dup then (self, None)
  else
    let '(self, ooo) := _is_out_of_order self event in
    if ooo then (self, None)
    else
      let st := _state self in
      let self :=
        with_state self
          (set_last_event_ms
             (Z.max (last_event_ms st) (timestamp_ms event)) st) in
      match status (_state self) with
      | PRE_MATCH => _on_event_pre_match self event
      | LIVE => _on_event_live self event
      | PAUSED => _on_event_paused self event
      | PENDING_CONFIRM => _on_event_pending self event now
      | FINAL => (_on_event_final self event, None)
      end.

Definition tick (self : TruthEngine) (now_ms : Z) (now : Z)
  : TruthEngine * option TruthFinal :=
  match status (_state self) with
  | PENDING_CONFIRM =>
      match ended_at_ms (_state self) with
      | None => (self, None)
      | Some ended =>
          let elapsed := (now_ms - ended)%Z in
          if (elapsed >=? max_wait_ms (_config self))%Z then
            let '(self', f) := _finalize self now in (self', Some f)
          else (self, None)
      end
  | _ => (self, None)
  end.

(** A stream of events handed to [on_event] one after the other, each
    with the clock reading of its call. *)
Fixpoint run (self : TruthEngine) (events : list (Z * MatchEvent))
  : TruthEngine :=
  match events with
  | [] => self
  | (now, event) :: rest => run (fst (on_event self event now)) rest
  end.

End Engine.

End Truth.

(** ** [src/domain/engines/trading_engine.py] *)

Module Trading.
Import Py Types.
Local Open Scope float_scope.

Record TradingEngineConfig : Type := mkTradingEngineConfig {
  idle_after_no_opportunity_ticks : Z;
  temporal_signal_ttl_ms : Z;
  settlement_timeout_ms : Z;
  auto_recover_from_halt : bool;
  halt_recovery_delay_ms : Z;
  pair_cost_cap : float;
  cfg_fee_rate : float;
  step_usdc : float;
  max_total_cost : float;
  max_leg_imbalance_usdc : float;
  max_consecutive_rejects : Z;
  max_cancel_failures : Z
}.

Definition default_config : TradingEngineConfig :=
  mkTradingEngineConfig 100 5000 60000 false 300000
    0.975 0.02 25.0 1500.0 100.0 3 3.

(** *** [dict[str, Order]]: keys in insertion order *)

Fixpoint dict_get (d : list (string * Order)) (k : string) : option Order :=
  match d with
  | [] => None
  | (k', v) :: rest => if String.eqb k' k then Some v else dict_get rest k
  end.

(** [d[k] = v]: an existing key keeps its place. *)
Fixpoint dict_set (d : list (string * Order)) (k : string) (v : Order)
  : list (string * Order) :=
  match d with
  | [] => [(k, v)]
  | (k', v') :: rest =>
      if String.eqb k' k then (k', v) :: rest
      else (k', v') :: dict_set rest k v
  end.

(** [del d[k]] *)
Fixpoint dict_del (d : list (string * Order)) (k : string)
  : list (string * Order) :=
  match d with
  | [] => []
  | (k', v') :: rest =>
      if String.eqb k' k then rest else (k', v') :: dict_del rest k
  end.

Definition set_order_status (s : OrderStatus) (o : Order) : Order :=
  mkOrder (order_id o) (order_market_id o) (order_token_id o)
    (order_side o) (order_price o) (order_size o) s
    (order_filled_size o) (order_avg_fill_price o)
    (order_error_message o) (order_reject_reason o).

Definition set_order_reject_reason (r : option string) (o : Order) : Order :=
  mkOrder (order_id o) (order_market_id o) (order_token_id o)
    (order_side o) (order_price o) (order_size o) (order_status o)
    (order_filled_size o) (order_avg_fill_price o)
    (order_error_message o) r.

(** [TradingState] of [src/domain/types.py] *)
Record TradingState : Type := mkTradingState {
  market_id : string;
  status : TradingStatus;
  position : PairPosition;
  open_orders : list (string * Order);
  consecutive_rejects : Z;
  consecutive_cancel_failures : Z;
  last_order_latency_ms : option float;
  entered_state_at : Z;
  last_activity_at : Z
}.

(** Field assignments [self._state.f = v]. *)
Definition set_status (v : TradingStatus) (self : TradingState) : TradingState :=
  mkTradingState (market_id self) v (position self) (open_orders self)
    (consecutive_rejects self) (consecutive_cancel_failures self)
    (last_order_latency_ms self) (entered_state_at self)
    (last_activity_at self).

Definition set_position (v : PairPosition) (self : TradingState) : TradingState :=
  mkTradingState (market_id self) (status self) v (open_orders self)
    (consecutive_rejects self) (consecutive_cancel_failures self)
    (last_order_latency_ms self) (entered_state_at self)
    (last_activity_at self).

Definition set_open_orders (v : list (string * Order)) (self : TradingState) : TradingState :=
  mkTradingState (market_id self) (status self) (position self) v
    (consecutive_rejects self) (consecutive_cancel_failures self)
    (last_order_latency_ms self) (entered_state_at self)
    (last_activity_at self).

Definition set_consecutive_rejects (v : Z) (self : TradingState) : TradingState :=
  mkTradingState (market_id self) (status self) (position self)
    (open_orders self) v (consecutive_cancel_failures self)
    (last_order_latency_ms self) (entered_state_at self)
    (last_activity_at self).

Definition set_consecutive_cancel_failures (v : Z) (self : TradingState) : TradingState :=
  mkTradingState (market_id self) (status self) (position self)
    (open_orders self) (consecutive_rejects self) v
    (last_order_latency_ms self) (entered_state_at self)
    (last_activity_at self).

Definition set_entered_state_at (v : Z) (self : TradingState) : TradingState :=
  mkTradingState (market_id self) (status self) (position self)
    (open_orders self) (consecutive_rejects self)
    (consecutive_cancel_failures self) (last_order_latency_ms self) v
    (last_activity_at self).

Definition set_last_activity_at (v : Z) (self : TradingState) : TradingState :=
  mkTradingState (market_id self) (status self) (position self)
    (open_orders self) (consecutive_rejects self)
    (consecutive_cancel_failures self) (last_order_latency_ms self)
    (entered_state_at self) v.

Record TradingEngine : Type := mkTradingEngine {
  _config : TradingEngineConfig;
  _state : TradingState;
  _no_opportunity_ticks : Z;
  _temporal_signal_at_ms : option Z
}.

Definition with_state (self : TradingEngine) (st : TradingState)
  : TradingEngine :=
  mkTradingEngine (_config self) st (_no_opportunity_ticks self)
    (_temporal_signal_at_ms self).

Definition with_ticks (self : TradingEngine) (n : Z) : TradingEngine :=
  mkTradingEngine (_config self) (_state self) n
    (_temporal_signal_at_ms self).

Definition with_signal (self : TradingEngine) (t : option Z)
  : TradingEngine :=
  mkTradingEngine (_config self) (_state self)
    (_no_opportunity_ticks self) t.

(** [TradingEngine.__init__] with [position=None]; [now] is the reading
    of the clock by the two timestamp defaults of [TradingState]. *)
Definition TradingEngine_new (mid : string) (config : TradingEngineConfig)
    (now : Z) : TradingEngine :=
  mkTradingEngine config
    (mkTradingState mid IDLE (PairPosition_new mid (cfg_fee_rate config))
       [] 0%Z 0%Z None now now)
    0%Z None.

(** *** State transitions *)

(** [_transition_to]; the reason is only logged. *)
Definition _transition_to (self : TradingEngine)
    (new_status : TradingStatus) (reason : string) (now : Z)
  : TradingEngine :=
  let st := set_status new_status (_state self) in
  let st := set_entered_state_at now st in
  let st := set_last_activity_at now st in
  with_state self st.

Definition _cancel_all_orders (self : TradingEngine) : list CancelIntent :=
  flat_map
    (fun '(oid, order) =>
       match order_status order with
       | PLACED | PENDING =>
           [mkCancelIntent oid (market_id (_state self)) "cancel_all"]
       | _ => []
       end)
    (open_orders (_state self)).

Definition halt (self : TradingEngine) (reason : string) (now : Z)
  : TradingEngine * list CancelIntent :=
  match status (_state self) with
  | HALT => (self, [])
  | _ =>
      let self' := _transition_to self HALT reason now in
      (self', _cancel_all_orders self')
  end.

Definition resume_from_halt (self : TradingEngine) (now : Z)
  : TradingEngine * bool :=
  match status (_state self) with
  | HALT =>
      let st := set_consecutive_rejects 0%Z (_state self) in
      let st := set_consecutive_cancel_failures 0%Z st in
      (_transition_to (with_state self st) IDLE "manual_resume" now, true)
  | _ => (self, false)
  end.

Definition finalize (self : TradingEngine) (now : Z)
  : TradingEngine * list CancelIntent :=
  match status (_state self) with
  | RESOLVED | HALT => (self, [])
  | _ =>
      let self' := _transition_to self FINALIZING "match_ending" now in
      (self', _cancel_all_orders self')
  end.

Definition resolve (self : TradingEngine) (now : Z) : TradingEngine :=
  _transition_to self RESOLVED "market_settled" now.

(** *** Risk and circuit breaker *)

(** [_check_circuit_breaker]: the list that [halt] returns is dropped. *)
Definition _check_circuit_breaker (self : TradingEngine) (now : Z)
  : TradingEngine * bool :=
  match status (_state self) with
  | HALT => (self, true)
  | _ =>
      let st := _state self in
      let reason : option string := None in
      let reason :=
        if (consecutive_rejects st
            >=? max_consecutive_rejects (_config self))%Z
        then Some ("consecutive_rejects:" +:+ pretty (consecutive_rejects st))
        else reason in
      let reason :=
        if (consecutive_cancel_failures st
            >=? max_cancel_failures (_config self))%Z
        then Some ("cancel_failures:"
                   +:+ pretty (consecutive_cancel_failures st))
        else reason in
      match reason with
      | Some r =>
          if str_truthy r then (fst (halt self r now), true)
          else (self, false)
      | None => (self, false)
      end
  end.

(** *** Strategy logic *)

Definition _select_leg_to_buy (self : TradingEngine)
    (orderbook_yes orderbook_no : OrderBook) : option Side :=
  let pos := position (_state self) in
  let imbalance_shares := q_yes pos - q_no pos in
  let threshold := 20.0 in
  if gt imbalance_shares threshold then Some NO
  else if lt imbalance_shares (- threshold) then Some YES
  else
    match best_ask orderbook_yes, best_ask orderbook_no with
    | None, None => None
    | None, Some _ => Some NO
    | Some _, None => Some YES
    | Some yes_ask, Some no_ask =>
        if lt yes_ask no_ask then Some YES else Some NO
    end.

Definition _evaluate_pair_arb_opportunity (self : TradingEngine)
    (orderbook_yes orderbook_no : OrderBook) (now : Z)
  : result (option OrderIntent) :=
  match _select_leg_to_buy self orderbook_yes orderbook_no with
  | None => Ok None
  | Some side =>
      let orderbook :=
        if Side_eqb side YES then orderbook_yes else orderbook_no in
      match best_ask orderbook with
      | None => Ok None
      | Some price =>
          let cfg := _config self in
          '(allowed, reason) ←
            should_buy_more (position (_state self)) side (step_usdc cfg)
              price (pair_cost_cap cfg) (max_total_cost cfg)
              (max_leg_imbalance_usdc cfg) true now;
          if negb allowed then Ok None
          else
            Ok (Some (mkOrderIntent (market_id (_state self)) side price
                        (step_usdc cfg) "pair_arb"
                        (pair_cost_avg (position (_state self)))))
      end
  end.

(** *** State-specific handlers *)

Definition _handle_idle_orderbook (self : TradingEngine)
    (orderbook_yes orderbook_no : OrderBook) (now : Z)
  : TradingEngine * result (option OrderIntent) :=
  match _evaluate_pair_arb_opportunity self orderbook_yes orderbook_no now with
  | Raise e => (self, Raise e)
  | Ok (Some intent) =>
      let self' :=
        _transition_to self BUILDING_PAIR "pair_arb_opportunity" now in
      (with_ticks self' 0%Z, Ok (Some intent))
  | Ok None => (self, Ok None)
  end.

Definition _handle_building_orderbook (self : TradingEngine)
    (orderbook_yes orderbook_no : OrderBook) (now : Z)
  : TradingEngine * result (option OrderIntent) :=
  match _evaluate_pair_arb_opportunity self orderbook_yes orderbook_no now with
  | Raise e => (self, Raise e)
  | Ok (Some intent) => (with_ticks self 0%Z, Ok (Some intent))
  | Ok None =>
      (with_ticks self (_no_opportunity_ticks self + 1)%Z, Ok None)
  end.

(** [_handle_building_fill]: the lagging side it works out is only
    logged. *)
Definition _handle_building_fill (self : TradingEngine) (now : Z)
  : TradingEngine * option OrderIntent :=
  if gt (guaranteed_pnl (position (_state self))) 0
  then (_transition_to self LOCKED_PAIR "profit_locked" now, None)
  else (self, None).

Definition _handle_temporal_orderbook (self : TradingEngine)
    (orderbook_yes orderbook_no : OrderBook)
  : TradingEngine * result (option OrderIntent) :=
  (self, Ok None).

Definition _handle_temporal_fill (self : TradingEngine) (now : Z)
  : TradingEngine * option OrderIntent :=
  let self' :=
    if gt (guaranteed_pnl (position (_state self))) 0
    then _transition_to self LOCKED_PAIR "temporal_to_locked" now
    else _transition_to self IDLE "temporal_filled" now in
  (with_signal self' None, None).

(** *** Event handlers *)

Definition on_orderbook_update (self : TradingEngine)
    (orderbook_yes orderbook_no : OrderBook) (now : Z)
  : TradingEngine * result (option OrderIntent) :=
  let self := with_state self (set_last_activity_at now (_state self)) in
  let '(self, tripped) := _check_circuit_breaker self now in
  if tripped then (self, Ok None)
  else
    match status (_state self) with
    | IDLE => _handle_idle_orderbook self orderbook_yes orderbook_no now
    | BUILDING_PAIR =>
        _handle_building_orderbook self orderbook_yes orderbook_no now
    | TEMPORAL_ACTIVE =>
        _handle_temporal_orderbook self orderbook_yes orderbook_no
    | _ => (self, Ok None)
    end.

Definition on_fill (self : TradingEngine) (side : Side) (qty price : float)
    (oid : string) (now : Z)
  : TradingEngine * result (option OrderIntent) :=
  match apply_fill (position (_state self)) (Fill_of side qty price) now with
  | (_, Raise e) => (self, Raise e)
  | (pos', Ok _) =>
      let st := set_position pos' (_state self) in
      let st := set_last_activity_at now st in
      let st :=
        match dict_get (open_orders st) oid with
        | Some _ => set_open_orders (dict_del (open_orders st) oid) st
        | None => st
        end in
      let self := with_state self st in
      match status (_state self) with
      | BUILDING_PAIR =>
          let '(self', r) := _handle_building_fill self now in
          (self', Ok r)
      | TEMPORAL_ACTIVE =>
          let '(self', r) := _handle_temporal_fill self now in
          (self', Ok r)
      | _ => (self, Ok None)
      end
  end.

Definition on_order_rejected (self : TradingEngine) (oid reason : string)
    (now : Z) : TradingEngine :=
  let st := _state self in
  let st := set_consecutive_rejects (consecutive_rejects st + 1)%Z st in
  let st := set_last_activity_at now st in
  let st :=
    match dict_get (open_orders st) oid with
    | Some order =>
        let order := set_order_status REJECTED order in
        let order := set_order_reject_reason (Some reason) order in
        set_open_orders (dict_set (open_orders st) oid order) st
    | None => st
    end in
  fst (_check_circuit_breaker (with_state self st) now).

Definition on_order_success (self : TradingEngine) (oid : string) (now : Z)
  : TradingEngine :=
  let st := _state self in
  let st := set_consecutive_rejects 0%Z st in
  let st := set_last_activity_at now st in
  let st :=
    match dict_get (open_orders st) oid with
    | Some order =>
        set_open_orders
          (dict_set (open_orders st) oid (set_order_status PLACED order)) st
    | None => st
    end in
  with_state self st.

Definition on_cancel_failure (self : TradingEngine) (oid : string) (now : Z)
  : TradingEngine :=
  let st := _state self in
  let st :=
    set_consecutive_cancel_failures
      (consecutive_cancel_failures st + 1)%Z st in
  fst (_check_circuit_breaker (with_state self st) now).

Definition on_cancel_success (self : TradingEngine) (oid : string)
  : TradingEngine :=
  let st := _state self in
  let st := set_consecutive_cancel_failures 0%Z st in
  let st :=
    match dict_get (open_orders st) oid with
    | Some _ => set_open_orders (dict_del (open_orders st) oid) st
    | None => st
    end in
  with_state self st.

Definition on_tick (self : TradingEngine) (now_ms : Z) (now : Z)
  : TradingEngine * list CancelIntent :=
  match status (_state self) with
  | BUILDING_PAIR =>
      let self := with_ticks self (_no_opportunity_ticks self + 1)%Z in
      if (_no_opportunity_ticks self
          >=? idle_after_no_opportunity_ticks (_config self))%Z
      then
        (with_ticks (_transition_to self IDLE "no_opportunity_timeout" now)
           0%Z, [])
      else (self, [])
  | TEMPORAL_ACTIVE =>
      match _temporal_signal_at_ms self with
      | Some at_ms =>
          if (at_ms =? 0)%Z then (self, [])
          else
            let elapsed := (now_ms - at_ms)%Z in
            if (elapsed >=? temporal_signal_ttl_ms (_config self))%Z then
              let intents := _cancel_all_orders self in
              let self' := _transition_to self IDLE "signal_expired" now in
              (with_signal self' None, intents)
            else (self, [])
      | None => (self, [])
      end
  | _ => (self, [])
  end.

Definition track_order (self : TradingEngine) (order : Order)
  : TradingEngine :=
  with_state self
    (set_open_orders
       (dict_set (open_orders (_state self)) (order_id order) order)
       (_state self)).

End Trading.


(** ** [interfaces.py]: the position arithmetic used by the simulator *)

Module Interfaces.
Import Py.
Local Open Scope float_scope.

(** [Side] has the two members of [src/domain/types.py] and is shared
    with it. *)
Record Fill : Type := mkFill {
  fill_side : Types.Side;
  fill_qty : float;
  fill_price : float;
  fill_ts_ms : Z
}.

Record PairPosition : Type := mkPairPosition {
  fee_rate : float;
  q_yes : float;
  q_no : float;
  c_yes : float;
  c_no : float
}.

Definition apply_fill (self : PairPosition) (fill : Fill)
  : PairPosition * result unit :=
  if le (fill_qty fill) 0 then (self, Ok tt)
  else if negb (le 0 (fill_price fill) && le (fill_price fill) 1)
  then (self, Raise ValueError)
  else
    match fill_side fill with
    | Types.YES =>
        (mkPairPosition (fee_rate self)
           (q_yes self + fill_qty fill) (q_no self)
           (c_yes self + fill_qty fill * fill_price fill) (c_no self), Ok tt)
    | Types.NO =>
        (mkPairPosition (fee_rate self)
           (q_yes self) (q_no self + fill_qty fill)
           (c_yes self) (c_no self + fill_qty fill * fill_price fill), Ok tt)
    end.

Definition total_cost (self : PairPosition) : float :=
  c_yes self + c_no self.

Definition q_min (self : PairPosition) : float :=
  min (q_yes self) (q_no self).

Definition payout_net (self : PairPosition) : float :=
  q_min self * (1 - fee_rate self).

Definition guaranteed_pnl (self : PairPosition) : float :=
  payout_net self - total_cost self.

Definition avg_yes (self : PairPosition) : option float :=
  if le (q_yes self) 0 then None else Some (c_yes self / q_yes self).

Definition avg_no (self : PairPosition) : option float :=
  if le (q_no self) 0 then None else Some (c_no self / q_no self).

Definition pair_cost_avg (self : PairPosition) : option float :=
  match avg_yes self, avg_no self with
  | Some ay, Some an => Some (ay + an)
  | _, _ => None
  end.

Definition copy (self : PairPosition) : PairPosition :=
  mkPairPosition (fee_rate self) (q_yes self) (q_no self)
    (c_yes self) (c_no self).

Definition hypo_buy (self : PairPosition) (side : Types.Side)
    (usdc_amount price : float) : result PairPosition :=
  if le usdc_amount 0 then Ok (copy self)
  else if le price 0 then Ok (copy self)
  else
    let qty := usdc_amount / price in
    let nxt := copy self in
    match apply_fill nxt (mkFill side qty price 0%Z) with
    | (nxt', Ok _) => Ok nxt'
    | (_, Raise e) => Raise e
    end.

(** [should_buy_more] of [interfaces.py]: a bare [bool], no imbalance
    check, and a final [>] where [src/domain/types.py] has a [<=]. *)
Definition should_buy_more (pos : PairPosition) (side : Types.Side)
    (usdc_amount price : float) (pair_cost_cap max_total_cost : float)
    (require_improve : bool) : result bool :=
  if le usdc_amount 0 then Ok false
  else if gt (total_cost pos + usdc_amount) max_total_cost then Ok false
  else
    nxt ← hypo_buy pos side usdc_amount price;
    let pc := pair_cost_avg nxt in
    let net_cap := 1 - fee_rate nxt in
    if match pc with Some c => ge c net_cap | None => false end
    then Ok false
    else if match pc with Some c => ge c pair_cost_cap | None => false end
    then Ok false
    else if require_improve
    then Ok (gt (guaranteed_pnl nxt) (guaranteed_pnl pos))
    else Ok true.

(** The position of [src/domain/types.py] seen as one of this file: the
    market identifier and the fill timestamps are dropped. *)
Definition of_types (pos : Types.PairPosition) : PairPosition :=
  mkPairPosition (Types.fee_rate pos) (Types.q_yes pos) (Types.q_no pos)
    (Types.c_yes pos) (Types.c_no pos).

End Interfaces.

(** ** The specification's words, next to the code *)

Module Spec.
Import Py Types.
Local Open Scope float_scope.

(** The reason of the first check of a table whose condition holds. *)
Fixpoint first_firing (checks : list (string * bool)) : option string :=
  match checks with
  | [] => None
  | (reason_code, fires) :: rest =>
      if fires then Some reason_code else first_firing rest
  end.

(** Rows 1 and 2 of the table of section 4.2: conditions on the position
    as it is. *)
Definition pre_buy_checks (pos : PairPosition)
    (quote_amount max_total_cost : float) : list (string * bool) :=
  [ ("zero_amount", le quote_amount 0);
    ("exceeds_max_total", gt (total_cost pos + quote_amount) max_total_cost) ].

(** Rows 3 to 6: conditions on the post-buy position [post]; [f] is the
    fee rate of the position, an undefined [pair_cost_avg] satisfies no
    comparison. *)
Definition post_buy_checks (pos post : PairPosition)
    (pair_cost_cap max_leg_imbalance_quote : float)
    (require_improve : bool) : list (string * bool) :=
  let at_least (bound : float) :=
    match pair_cost_avg post with
    | Some pc => ge pc bound
    | None => false
    end in
  [ ("pair_cost_exceeds_net", at_least (1 - fee_rate pos));
    ("pair_cost_exceeds_cap", at_least pair_cost_cap);
    ("leg_imbalance", gt (leg_imbalance_usdc post) max_leg_imbalance_quote);
    ("no_pnl_improvement",
      require_improve && le (guaranteed_pnl post) (guaranteed_pnl pos)) ].

(** A price inside [[0, 1]], as [apply_fill] tests it. *)
Definition price_in_unit_interval (p : float) : bool :=
  le 0 p && le p 1.

(** Orders that [_cancel_all_orders] cancels, and the non-terminal
    orders of section 3. *)
Definition cancellable (s : OrderStatus) : bool :=
  match s with
  | PENDING | PLACED => true
  | _ => false
  end.

Definition non_terminal (s : OrderStatus) : bool :=
  match s with
  | PENDING | PLACED | MATCHED | MINED => true
  | CONFIRMED | REJECTED | CANCELLED | FAILED => false
  end.

(** The identifier under which [_is_duplicate] knows an event. *)
Definition event_key
    (hash_event : MatchEventType -> Z -> gmap string Truth.pyval -> string)
    (event : Truth.MatchEvent) : string :=
  match Truth.source_event_id event with
  | Some id =>
      if str_truthy id then id else Truth._hash_event hash_event event
  | None => Truth._hash_event hash_event event
  end.

(** The engine at the point where [on_order_rejected] calls
    [_check_circuit_breaker]: counter incremented, the order marked. *)
Definition rejection_recorded (self : Trading.TradingEngine)
    (oid reason : string) (now : Z) : Trading.TradingEngine :=
  let st := Trading._state self in
  let st :=
    Trading.set_consecutive_rejects (Trading.consecutive_rejects st + 1)%Z st in
  let st := Trading.set_last_activity_at now st in
  let st :=
    match Trading.dict_get (Trading.open_orders st) oid with
    | Some order =>
        let order := Trading.set_order_status REJECTED order in
        let order := Trading.set_order_reject_reason (Some reason) order in
        Trading.set_open_orders
          (Trading.dict_set (Trading.open_orders st) oid order) st
    | None => st
    end in
  Trading.with_state self st.

End Spec.

(** ** Concrete positions, books, events and engines used in examples *)

Module Examples.
Import Py Types.
Local Open Scope float_scope.

Definition empty_position : PairPosition := PairPosition_new "test" 0.02.

(** One ask level of 10 shares at 0.5: 5 units of quote depth. *)
Definition thin_book : OrderBook :=
  mkOrderBook "yes_token" [] [mkLevel 0.5 10] 0%Z.

Definition book_ask (tok : string) (p : float) : OrderBook :=
  mkOrderBook tok [] [mkLevel p 100] 0%Z.

Definition order_with (oid : string) (s : OrderStatus) : Order :=
  mkOrder oid "mkt" "tok" YES 0.5 25 s 0 None None None.

(** *** Truth engine *)

(** The configuration of the fixture of [tests/test_truth_engine.py]. *)
Definition test_config : Truth.TruthEngineConfig :=
  Truth.mkTruthEngineConfig 0.90 10000 2 2000
    ["grid"; "official"] ["opendota"; "pandascore"] ["liquipedia"].

Definition test_engine : Truth.TruthEngine :=
  Truth.TruthEngine_new "test_match_1" "team_a" "team_b" test_config.

(** A configuration under which only the confidence threshold of 0.99
    or ten agreeing sources finalize. *)
Definition slow_config : Truth.TruthEngineConfig :=
  Truth.mkTruthEngineConfig 0.99 10000 10 2000 [] [] [].

Definition slow_engine : Truth.TruthEngine :=
  Truth.TruthEngine_new "test_match_1" "team_a" "team_b" slow_config.

Definition winner_payload (team : string) : gmap string Truth.pyval :=
  {[ "winner_team_id"%string := Truth.PStr team ]}.

(** The two events of [test_tier_a_single_source_finalizes]. *)
Definition started_opendota : Truth.MatchEvent :=
  Truth.mkMatchEvent 1000 "test_match_1" MATCH_STARTED "opendota" TIER_B
    ∅ None None.

Definition ended_grid_team_a : Truth.MatchEvent :=
  Truth.mkMatchEvent 5000 "test_match_1" MATCH_ENDED "grid" TIER_A
    (winner_payload "team_a") None None.

(** [MATCH_ENDED] reports that carry an event identifier of the source. *)
Definition ended_by (src : string) (tier : DataSourceTier) (ts : Z)
    (team id : string) : Truth.MatchEvent :=
  Truth.mkMatchEvent ts "test_match_1" MATCH_ENDED src tier
    (winner_payload team) (Some id) None.

Definition started_with_id : Truth.MatchEvent :=
  Truth.mkMatchEvent 1000 "test_match_1" MATCH_STARTED "opendota" TIER_B
    ∅ (Some "start_1"%string) None.

(** Match start, then agreeing reports of a Tier-A and a Tier-B source,
    each with the clock reading of its call. *)
Definition two_confirmations : list (Z * Truth.MatchEvent) :=
  [ (1001%Z, started_with_id);
    (5001%Z, ended_by "src_a" TIER_A 5000 "team_a" "end_a");
    (5101%Z, ended_by "src_b" TIER_B 5100 "team_a" "end_b") ].

(** A further agreeing report, of a Tier-C source. *)
Definition third_confirmation : Z * Truth.MatchEvent :=
  (5201%Z, ended_by "src_c" TIER_C 5200 "team_a" "end_c").

(** A stand-in for the hash of an event, for evaluation. *)
Definition toy_hash (ty : MatchEventType) (ts : Z)
    (p : gmap string Truth.pyval) : string :=
  pretty ts.

(** An engine in PENDING_CONFIRM with winner [team_a], and a report of
    a fourth source that names [team_b]. *)
Definition pending_engine : Truth.TruthEngine :=
  Truth.run toy_hash slow_engine two_confirmations.

Definition dissenting_report : Truth.MatchEvent :=
  ended_by "src_d" TIER_B 5300 "team_b" "end_d".

(** *** Trading engine *)

Definition fresh_trader : Trading.TradingEngine :=
  Trading.TradingEngine_new "mkt" Trading.default_config 0%Z.

(** Four tracked orders, one in each non-terminal status. *)
Definition trader_with_orders : Trading.TradingEngine :=
  Trading.track_order
    (Trading.track_order
       (Trading.track_order
          (Trading.track_order fresh_trader (order_with "o1" PLACED))
          (order_with "o2" MATCHED))
       (order_with "o3" MINED))
    (order_with "o4" PENDING).

(** Two rejections of orders the engine does not track. *)
Definition trader_two_rejects : Trading.TradingEngine :=
  Trading.on_order_rejected
    (Trading.on_order_rejected trader_with_orders "x1" "insufficient" 1%Z)
    "x2" "insufficient" 2%Z.

End Examples.

(** * Properties *)

(** ** Floating-point comparisons *)

Section FloatFacts.
Import Py.

(** A value that fails [q <= 0] is not a zero: the divisions guarded by
    this test never raise. *)
Lemma not_le_zero_nonzero (q : float) :
  le q 0%float = false -> eq q 0%float = false.
Proof.
  unfold le, eq. rewrite FloatAxioms.leb_spec, FloatAxioms.eqb_spec.
  unfold SpecFloat.SFleb, SpecFloat.SFeqb.
  destruct (SpecFloat.SFcompare _ _) as [[]|]; congruence.
Qed.

(** Equal values are not strictly ordered: a tie fails [a < b]. *)
Lemma eq_not_lt (a b : float) : eq a b = true -> lt a b = false.
Proof.
  unfold lt, eq. rewrite FloatAxioms.ltb_spec, FloatAxioms.eqb_spec.
  unfold SpecFloat.SFltb, SpecFloat.SFeqb.
  destruct (SpecFloat.SFcompare _ _) as [[]|]; congruence.
Qed.

End FloatFacts.

(** ** Pair-position arithmetic *)

Section PairPositionFacts.
Import Py Types Spec.
Local Open Scope float_scope.

Lemma copy_id (pos : PairPosition) : copy pos = pos.
Proof. destruct pos; reflexivity. Qed.

(** [apply_fill] never touches the fee rate. *)
Lemma apply_fill_fee_rate pos fill now :
  fee_rate (fst (apply_fill pos fill now)) = fee_rate pos.
Proof.
  unfold apply_fill.
  destruct (le (fill_qty fill) 0); [reflexivity|].
  destruct (negb _); [reflexivity|].
  destruct (fill_side fill); reflexivity.
Qed.

(** When [apply_fill] raises, the receiver is as it was. *)
Lemma apply_fill_raise_unchanged pos fill now e :
  snd (apply_fill pos fill now) = Raise e ->
  fst (apply_fill pos fill now) = pos.
Proof.
  unfold apply_fill.
  destruct (le (fill_qty fill) 0); [reflexivity|].
  destruct (negb _); [reflexivity|].
  destruct (fill_side fill); discriminate.
Qed.

Lemma hypo_buy_fee_rate pos side amount price now post :
  hypo_buy pos side amount price now = Ok post ->
  fee_rate post = fee_rate pos.
Proof.
  unfold hypo_buy. rewrite copy_id.
  destruct (le amount 0 || le price 0); [intros [= <-]; reflexivity|].
  pose proof (apply_fill_fee_rate pos (Fill_of side (amount / price) price) now) as Hfee.
  destruct (apply_fill _ _ _) as [p [[]|e]]; [|discriminate].
  intros [= <-]. exact Hfee.
Qed.

(** C1, as amended: [should_buy_more] tests [zero_amount] and then
    [exceeds_max_total] on the position itself; if neither fires it
    takes the [hypo_buy] projection, whose validation error (a price
    that is not within [[0, 1]]) it lets through to the caller, and
    otherwise tests [pair_cost_exceeds_net], [pair_cost_exceeds_cap],
    [leg_imbalance] and [no_pnl_improvement] in this order on the
    projection, with the conditions of the table of section 4.2; it
    returns the reason of the first check that fires, or approval. *)
Theorem should_buy_more_precedence
    (pos : PairPosition) (side : Side) (amount price : float)
    (pair_cost_cap max_total_cost max_leg_imbalance : float)
    (require_improve : bool) (now : Z) :
  should_buy_more pos side amount price pair_cost_cap max_total_cost
    max_leg_imbalance require_improve now =
  match first_firing (pre_buy_checks pos amount max_total_cost) with
  | Some reason_code => Ok (false, reason_code)
  | None =>
      match hypo_buy pos side amount price now with
      | Raise e => Raise e
      | Ok post =>
          match first_firing
                  (post_buy_checks pos post pair_cost_cap max_leg_imbalance
                     require_improve) with
          | Some reason_code => Ok (false, reason_code)
          | None => Ok (true, "approved"%string)
          end
      end
  end.
Proof.
  unfold should_buy_more, pre_buy_checks, post_buy_checks; cbn [first_firing].
  destruct (le amount 0); [reflexivity|].
  destruct (gt (total_cost pos + amount) max_total_cost); [reflexivity|].
  destruct (hypo_buy pos side amount price now) as [post|e] eqn:Hproj;
    [|reflexivity].
  cbn [mbind result_bind bind].
  rewrite (hypo_buy_fee_rate _ _ _ _ _ _ Hproj).
  destruct (pair_cost_avg post) as [pc|].
  - destruct (ge pc (1 - fee_rate pos)); [reflexivity|].
    destruct (ge pc pair_cost_cap); [reflexivity|].
    destruct (gt (leg_imbalance_usdc post) max_leg_imbalance); [reflexivity|].
    destruct (require_improve && _); reflexivity.
  - destruct (gt (leg_imbalance_usdc post) max_leg_imbalance); [reflexivity|].
    destruct (require_improve && _); reflexivity.
Qed.

(** C1 as stated fails: buying 10 of quote at price 2 on an empty
    position with generous caps makes no check of the table fire before
    the projection is taken, and the call raises instead of returning a
    reason or approval. *)
Lemma should_buy_more_raises_above_unit_price :
  should_buy_more Examples.empty_position YES 10 2 0.975 1000 inf true 0%Z
  = Raise ValueError
  /\ first_firing (pre_buy_checks Examples.empty_position 10 1000) = None.
Proof. split; vm_compute; reflexivity. Qed.

(** Scenario 3 of section 8: the net check takes precedence over the
    cap check. *)
Example should_buy_more_scenario_3 :
  should_buy_more
    (mkPairPosition "test" 0.02 100 0 55 0 None None)
    NO 50 0.5 0.99 1000 inf true 0%Z
  = Ok (false, "pair_cost_exceeds_net"%string).
Proof. vm_compute. reflexivity. Qed.

(** C10, as amended: a fill whose price is outside [[0, 1]] never
    changes the position; [apply_fill] raises the validation error when
    the quantity passes the [qty <= 0] test, and returns silently when
    it does not. *)
Theorem apply_fill_price_outside_unit
    (pos : PairPosition) (fill : Fill) (now : Z) :
  price_in_unit_interval (fill_price fill) = false ->
  apply_fill pos fill now =
  (pos, if le (fill_qty fill) 0 then Ok tt else Raise ValueError).
Proof.
  unfold price_in_unit_interval, apply_fill. intros Hout.
  destruct (le (fill_qty fill) 0); [reflexivity|].
  rewrite Hout. reflexivity.
Qed.

Lemma apply_fill_price_outside_unit_witness :
  apply_fill Examples.empty_position (Fill_of NO 100 1.5) 42%Z =
  (Examples.empty_position, Raise ValueError).
Proof.
  exact (apply_fill_price_outside_unit Examples.empty_position
           (Fill_of NO 100 1.5) 42%Z eq_refl).
Defined.

(** C10 as stated fails: a fill of quantity 0 at price 2 is outside
    [[0, 1]] and [apply_fill] returns without raising. *)
Lemma apply_fill_zero_qty_no_raise :
  price_in_unit_interval 2 = false
  /\ apply_fill Examples.empty_position (Fill_of YES 0 2) 42%Z =
     (Examples.empty_position, Ok tt).
Proof. split; vm_compute; reflexivity. Qed.

(** C9 at a failing input: 100 of quote against a book whose only ask
    holds 5 of quote. The walk fills 5 at 0.5 and the average of that
    partial fill is returned, not infinity. *)
Theorem effective_price_partial_fill_not_inf :
  effective_price_for_size Examples.thin_book YES 100 = Ok 0.5
  /\ walk_levels (asks Examples.thin_book) 100 0 0 = Ok (95, 5, 10)
  /\ eq 0.5 inf = false.
Proof. repeat split; vm_compute; reflexivity. Qed.

(** With an empty side nothing is filled and the result is infinity. *)
Lemma effective_price_empty_book tok ts amount :
  effective_price_for_size (mkOrderBook tok [] [] ts) YES amount = Ok inf.
Proof. reflexivity. Qed.

(** A level priced at zero makes the walk raise. *)
Example effective_price_zero_price_level :
  effective_price_for_size (mkOrderBook "t" [] [mkLevel 0 10] 0%Z) YES 100
  = Raise ZeroDivisionError.
Proof. vm_compute. reflexivity. Qed.

End PairPositionFacts.

(** ** Truth engine *)

Section TruthFacts.
Import Py Types Truth Spec.
Local Open Scope float_scope.

Variable hash_event : MatchEventType -> Z -> gmap string pyval -> string.

Local Abbreviation key := (event_key hash_event).

(** *** Admission *)

Lemma is_duplicate_spec self ev :
  _is_duplicate hash_event self ev =
  if bool_decide (key ev ∈ seen_event_ids (_state self)) then (self, true)
  else (with_state self
          (set_seen_event_ids (seen_event_ids (_state self) ∪ {[key ev]})
             (_state self)), false).
Proof.
  unfold _is_duplicate, event_key.
  destruct (source_event_id ev) as [id|]; [destruct (str_truthy id)|];
    reflexivity.
Qed.

Lemma is_duplicate_fresh self ev :
  snd (_is_duplicate hash_event self ev) = false ->
  fst (_is_duplicate hash_event self ev) =
  with_state self
    (set_seen_event_ids (seen_event_ids (_state self) ∪ {[key ev]})
       (_state self)).
Proof.
  intros Hdup. rewrite is_duplicate_spec in *.
  destruct (bool_decide _); [discriminate|reflexivity].
Qed.

(** [_is_out_of_order] changes [last_seq] at most. *)
Lemma out_of_order_state self ev :
  exists l,
    fst (_is_out_of_order self ev) =
    with_state self (set_last_seq l (_state self)).
Proof.
  unfold _is_out_of_order.
  destruct self as [cfg st].
  destruct st as [? ? ? ? ? ? ? ? ? ? ? ? ? ? ls ?]. simpl.
  destruct (seq ev) as [s|], ls as [l|]; simpl;
    repeat case_match; simpl; eexists; reflexivity.
Qed.

Lemma out_of_order_seen self ev :
  seen_event_ids (_state (fst (_is_out_of_order self ev))) =
  seen_event_ids (_state self).
Proof.
  destruct (out_of_order_state self ev) as [l ->]. reflexivity.
Qed.

(** *** The state handlers leave the set of seen identifiers alone *)

Lemma pre_match_seen self ev :
  seen_event_ids (_state (fst (_on_event_pre_match self ev))) =
  seen_event_ids (_state self).
Proof. unfold _on_event_pre_match. destruct (event_type ev); reflexivity. Qed.

Lemma live_seen self ev :
  seen_event_ids (_state (fst (_on_event_live self ev))) =
  seen_event_ids (_state self).
Proof.
  unfold _on_event_live, _enter_pending_confirm.
  destruct (event_type ev); simpl; try reflexivity.
  - destruct (bool_decide _); reflexivity.
  - destruct (source_tier ev); reflexivity.
Qed.

Lemma paused_seen self ev :
  seen_event_ids (_state (fst (_on_event_paused self ev))) =
  seen_event_ids (_state self).
Proof.
  unfold _on_event_paused, _enter_pending_confirm.
  destruct (event_type ev); simpl; try reflexivity.
  destruct (source_tier ev); reflexivity.
Qed.

Lemma add_confirmation_seen self src tier :
  seen_event_ids (_state (_add_confirmation self src tier)) =
  seen_event_ids (_state self).
Proof.
  unfold _add_confirmation. destruct (bool_decide _); [reflexivity|].
  destruct tier; reflexivity.
Qed.

Lemma pending_seen self ev now :
  seen_event_ids (_state (fst (_on_event_pending self ev now))) =
  seen_event_ids (_state self).
Proof.
  unfold _on_event_pending.
  destruct (event_type ev); simpl; try reflexivity.
  destruct (bool_decide _); [|reflexivity].
  destruct (_should_finalize _); simpl; apply add_confirmation_seen.
Qed.

(** *** Replay *)

(** An event whose identifier is known is dropped without any change. *)
Lemma on_event_duplicate self ev now :
  key ev ∈ seen_event_ids (_state self) ->
  on_event hash_event self ev now = (self, None).
Proof.
  intros Hin. unfold on_event. rewrite is_duplicate_spec.
  rewrite bool_decide_eq_true_2 by exact Hin. reflexivity.
Qed.

(** After [on_event] the identifier of the event is known, whether the
    event was admitted or dropped. *)
Lemma on_event_seen self ev now :
  seen_event_ids (_state (fst (on_event hash_event self ev now))) =
  seen_event_ids (_state self) ∪ {[key ev]}.
Proof.
  unfold on_event. rewrite is_duplicate_spec.
  destruct (decide (key ev ∈ seen_event_ids (_state self))) as [Hin|Hin].
  { rewrite bool_decide_eq_true_2 by exact Hin. simpl.
    apply set_eq. intros x. rewrite elem_of_union, elem_of_singleton.
    split; [tauto|]. intros [Hx| ->]; assumption. }
  rewrite bool_decide_eq_false_2 by exact Hin.
  set (s1 := with_state self _).
  pose proof (out_of_order_seen s1 ev) as Hooo.
  destruct (_is_out_of_order s1 ev) as [s2 ooo]. simpl in Hooo.
  destruct ooo; [simpl; rewrite Hooo; reflexivity|].
  set (s3 := with_state s2 _).
  assert (Hs3 : seen_event_ids (_state s3)
                = seen_event_ids (_state self) ∪ {[key ev]}).
  { subst s3. simpl. rewrite Hooo. reflexivity. }
  destruct (status (_state s3)).
  - rewrite pre_match_seen. exact Hs3.
  - rewrite live_seen. exact Hs3.
  - rewrite paused_seen. exact Hs3.
  - rewrite pending_seen. exact Hs3.
  - exact Hs3.
Qed.

Lemma run_app self es es' :
  run hash_event self (es ++ es')
  = run hash_event (run hash_event self es) es'.
Proof.
  revert self. induction es as [|[now ev] es IH]; intros self; simpl;
    [reflexivity|apply IH].
Qed.

Lemma run_seen_mono es : forall self x,
  x ∈ seen_event_ids (_state self) ->
  x ∈ seen_event_ids (_state (run hash_event self es)).
Proof.
  induction es as [|[now ev] es IH]; intros self x Hx; simpl; [exact Hx|].
  apply IH. rewrite on_event_seen, elem_of_union. left. exact Hx.
Qed.

Lemma run_records es : forall self ev,
  In ev (map snd es) ->
  key ev ∈ seen_event_ids (_state (run hash_event self es)).
Proof.
  induction es as [|[now e] es IH]; intros self ev; simpl; [tauto|].
  intros [->|Hin]; [|apply IH, Hin].
  apply run_seen_mono.
  rewrite on_event_seen, elem_of_union, elem_of_singleton. right.
  reflexivity.
Qed.

Lemma run_all_duplicates es : forall self,
  (forall ev, In ev (map snd es) -> key ev ∈ seen_event_ids (_state self)) ->
  run hash_event self es = self.
Proof.
  induction es as [|[now e] es IH]; intros self Hall; simpl; [reflexivity|].
  rewrite on_event_duplicate by (apply Hall; left; reflexivity).
  apply IH. intros ev Hin. apply Hall. right. exact Hin.
Qed.

(** C5: replaying a stream leaves the engine where the first pass left
    it. For every engine and every list of events [es], handing
    [on_event] the events of [es] and then the same events again (at
    whatever clock readings) ends in the state reached by [es] alone:
    every event of the second pass is dropped as a duplicate. *)
Theorem replay_idempotent (self : TruthEngine)
    (es es' : list (Z * MatchEvent)) :
  map snd es' = map snd es ->
  run hash_event self (es ++ es') = run hash_event self es.
Proof.
  intros Hsame. rewrite run_app. apply run_all_duplicates.
  intros ev Hin. rewrite Hsame in Hin. apply run_records, Hin.
Qed.

(** *** Contradiction *)

(** C4: in PENDING_CONFIRM, an admitted MATCH_ENDED (neither a duplicate
    nor out of order) whose payload winner differs from the recorded
    [winner_team_id] takes the engine to LIVE, clears [winner_team_id],
    [ended_at_ms] and [sources_confirming], sets the confidence to 0 and
    returns a [TruthDelta] whose reason is ["contradiction"]. *)
Theorem contradiction_reverts_to_live
    (self : TruthEngine) (event : MatchEvent) (now : Z) :
  status (_state self) = PENDING_CONFIRM ->
  snd (_is_duplicate hash_event self event) = false ->
  snd (_is_out_of_order (fst (_is_duplicate hash_event self event)) event)
    = false ->
  event_type event = MATCH_ENDED ->
  payload_get (payload event) "winner_team_id"
    <> winner_team_id (_state self) ->
  let after := on_event hash_event self event now in
  status (_state (fst after)) = LIVE
  /\ winner_team_id (_state (fst after)) = PNone
  /\ ended_at_ms (_state (fst after)) = None
  /\ sources_confirming (_state (fst after)) = ∅
  /\ confidence (_state (fst after)) = 0
  /\ exists d : TruthDelta,
       snd after = Some (Delta d)
       /\ reason d = Some "contradiction"%string
       /\ old_value d = AStr "PENDING_CONFIRM"
       /\ new_value d = AStr "LIVE".
Proof.
  intros Hst Hdup Hooo Hty Hw after. subst after. unfold on_event.
  pose proof (is_duplicate_fresh self event Hdup) as Hs1.
  destruct (_is_duplicate hash_event self event) as [s1 dup].
  simpl in Hdup, Hs1, Hooo. subst dup.
  destruct (out_of_order_state s1 event) as [l Hs2].
  destruct (_is_out_of_order s1 event) as [s2 ooo].
  simpl in Hooo, Hs2. subst ooo s2 s1.
  destruct self as [cfg st]. destruct st. simpl in *. subst.
  unfold _on_event_pending. simpl. rewrite Hty.
  rewrite bool_decide_eq_false_2 by exact Hw.
  simpl. repeat split. eexists. repeat split.
Qed.

End TruthFacts.

(** ** Truth engine scenarios *)

Section TruthScenarios.
Import Py Types Truth Spec Examples.
Local Open Scope float_scope.

Lemma contradiction_reverts_to_live_witness :
  status (_state (fst (on_event toy_hash pending_engine dissenting_report 5301)))
  = LIVE
  /\ confidence
       (_state (fst (on_event toy_hash pending_engine dissenting_report 5301)))
     = 0.
Proof.
  assert (Hw : payload_get (payload dissenting_report) "winner_team_id"
               <> winner_team_id (_state pending_engine))
    by (vm_compute; discriminate).
  pose proof (contradiction_reverts_to_live toy_hash pending_engine
                dissenting_report 5301 eq_refl eq_refl eq_refl eq_refl Hw)
    as (Hstatus & _ & _ & _ & Hconf & _).
  exact (conj Hstatus Hconf).
Defined.

Lemma replay_idempotent_witness :
  run toy_hash slow_engine
    (two_confirmations ++ [third_confirmation]
     ++ two_confirmations ++ [third_confirmation])
  = run toy_hash slow_engine (two_confirmations ++ [third_confirmation]).
Proof.
  rewrite (app_assoc two_confirmations).
  exact (replay_idempotent toy_hash slow_engine
           (two_confirmations ++ [third_confirmation])
           (two_confirmations ++ [third_confirmation]) eq_refl).
Defined.

(** C2 at the input of [test_tier_a_single_source_finalizes]: a fresh
    engine with the test configuration, MATCH_STARTED from a Tier-B
    source, then one MATCH_ENDED from the Tier-A source "grid" with
    winner [team_a]. Whatever the event hash, the engine is not FINAL
    afterwards and no [TruthFinal] is returned; when the two events hash
    apart the engine waits in PENDING_CONFIRM at confidence 0.90, has
    returned a [TruthDelta], and [winner_if_final] already answers
    [team_a]. *)
Theorem tier_a_single_report_not_final
    (hash_event : MatchEventType -> Z -> gmap string pyval -> string)
    (now1 now2 : Z) :
  let started := fst (on_event hash_event test_engine started_opendota now1) in
  let after := on_event hash_event started ended_grid_team_a now2 in
  status (_state (fst after)) <> FINAL
  /\ (forall f : TruthFinal, snd after <> Some (Final f))
  /\ (event_key hash_event ended_grid_team_a
        <> event_key hash_event started_opendota ->
      status (_state (fst after)) = PENDING_CONFIRM
      /\ confidence (_state (fst after)) = 0.90
      /\ winner_if_final (fst after) = PStr "team_a"
      /\ exists d : TruthDelta, snd after = Some (Delta d)).
Proof.
  intros started after.
  assert (Hstarted :
    started =
    with_state test_engine
      (set_status LIVE
         (set_last_event_ms 1000
            (set_seen_event_ids (∅ ∪ {[event_key hash_event started_opendota]})
               (_state test_engine))))).
  { subst started. unfold on_event. rewrite is_duplicate_spec.
    rewrite bool_decide_eq_false_2 by apply not_elem_of_empty.
    reflexivity. }
  subst after. rewrite Hstarted. clear Hstarted started.
  unfold on_event. rewrite is_duplicate_spec.
  destruct (decide (event_key hash_event ended_grid_team_a
                    = event_key hash_event started_opendota)) as [Heq|Hne].
  - rewrite bool_decide_eq_true_2.
    + simpl. split; [discriminate|]. split; [intros f; discriminate|].
      intros Hne. destruct (Hne Heq).
    + simpl. rewrite Heq, elem_of_union, elem_of_singleton. tauto.
  - rewrite bool_decide_eq_false_2.
    + simpl. split; [discriminate|]. split; [intros f; discriminate|].
      intros _. repeat split. eexists. reflexivity.
    + simpl. rewrite elem_of_union, elem_of_singleton.
      intros [Hempty|Hkey]; [exact (not_elem_of_empty _ Hempty)|tauto].
Qed.

(** C3 at a failing input: with [confirm_threshold] 0.99, ten required
    sources and no listed Tier-A source, agreeing reports of a Tier-A
    and a Tier-B source leave the engine in PENDING_CONFIRM at
    confidence 0.95; a further agreeing report of a Tier-C source keeps
    it in PENDING_CONFIRM and lowers the confidence to 0.90. *)
Theorem confidence_drops_on_tier_c_confirmation
    (hash_event : MatchEventType -> Z -> gmap string pyval -> string) :
  let before := run hash_event slow_engine two_confirmations in
  let after :=
    run hash_event slow_engine (two_confirmations ++ [third_confirmation]) in
  status (_state before) = PENDING_CONFIRM
  /\ status (_state after) = PENDING_CONFIRM
  /\ winner_team_id (_state after) = winner_team_id (_state before)
  /\ confidence (_state before) = 0.95
  /\ confidence (_state after) = 0.90
  /\ lt (confidence (_state after)) (confidence (_state before)) = true.
Proof. vm_compute. repeat split. Qed.

(** With the test configuration the same Tier-C report would finalize:
    two agreeing sources suffice there. *)
Example second_source_finalizes_under_test_config :
  status (_state (run toy_hash test_engine
                    [ (1001%Z, started_with_id);
                      (5001%Z, ended_by "opendota" TIER_B 5000 "team_a" "end_a");
                      (5101%Z, ended_by "pandascore" TIER_B 5100 "team_a" "ps_123") ]))
  = FINAL.
Proof. vm_compute. reflexivity. Qed.

End TruthScenarios.

(** ** Trading engine *)

Section TradingFacts.
Import Py Types Trading Spec Examples.
Local Open Scope float_scope.

(** *** Leg selection *)

(** C8, as amended: with [d = q_yes - q_no], [d > 20] chooses NO and
    otherwise [d < -20] chooses YES; otherwise, with both best asks
    present, YES is chosen when its best ask is strictly lower and NO in
    every other case, so that a tie in best asks goes to NO; with one
    best ask absent the side that has one is chosen; with both absent no
    side is chosen. *)
Theorem select_leg_decision_table
    (self : TradingEngine) (orderbook_yes orderbook_no : OrderBook) :
  let pos := position (_state self) in
  let imbalance := q_yes pos - q_no pos in
  let chosen := _select_leg_to_buy self orderbook_yes orderbook_no in
  (gt imbalance 20 = true -> chosen = Some NO)
  /\ (gt imbalance 20 = false ->
      lt imbalance (PrimFloat.opp 20) = true ->
      chosen = Some YES)
  /\ (gt imbalance 20 = false ->
      lt imbalance (PrimFloat.opp 20) = false ->
      (forall yes_ask no_ask,
          best_ask orderbook_yes = Some yes_ask ->
          best_ask orderbook_no = Some no_ask ->
          chosen = Some (if lt yes_ask no_ask then YES else NO))
      /\ (forall yes_ask no_ask,
          best_ask orderbook_yes = Some yes_ask ->
          best_ask orderbook_no = Some no_ask ->
          eq yes_ask no_ask = true ->
          chosen = Some NO)
      /\ (forall yes_ask,
          best_ask orderbook_yes = Some yes_ask ->
          best_ask orderbook_no = None ->
          chosen = Some YES)
      /\ (forall no_ask,
          best_ask orderbook_yes = None ->
          best_ask orderbook_no = Some no_ask ->
          chosen = Some NO)
      /\ (best_ask orderbook_yes = None ->
          best_ask orderbook_no = None ->
          chosen = None)).
Proof.
  intros pos imbalance chosen. subst chosen. unfold _select_leg_to_buy.
  cbv zeta. fold pos. fold imbalance.
  split; [intros ->; reflexivity|].
  split; [intros -> ->; reflexivity|].
  intros -> ->. repeat split.
  - intros ya na -> ->. destruct (lt ya na); reflexivity.
  - intros ya na -> -> Htie. rewrite (eq_not_lt _ _ Htie). reflexivity.
  - intros ya -> ->. reflexivity.
  - intros na -> ->. reflexivity.
  - intros -> ->. reflexivity.
Qed.

Lemma select_leg_decision_table_witness :
  _select_leg_to_buy fresh_trader (book_ask "yes" 0.6) (book_ask "no" 0.4)
  = Some NO
  /\ _select_leg_to_buy fresh_trader (book_ask "yes" 0.4) (book_ask "no" 0.6)
     = Some YES.
Proof.
  split.
  - exact (proj1 (proj2 (proj2
             (select_leg_decision_table fresh_trader
                (book_ask "yes" 0.6) (book_ask "no" 0.4)))
             eq_refl eq_refl) 0.6 0.4 eq_refl eq_refl).
  - exact (proj1 (proj2 (proj2
             (select_leg_decision_table fresh_trader
                (book_ask "yes" 0.4) (book_ask "no" 0.6)))
             eq_refl eq_refl) 0.4 0.6 eq_refl eq_refl).
Defined.

(** C8 as stated fails: on a balanced position with both best asks at
    0.5 the tie goes to NO, not to YES. *)
Lemma select_leg_tie_goes_to_no :
  best_ask (book_ask "yes" 0.5) = best_ask (book_ask "no" 0.5)
  /\ _select_leg_to_buy fresh_trader (book_ask "yes" 0.5) (book_ask "no" 0.5)
     = Some NO.
Proof. split; vm_compute; reflexivity. Qed.

(** *** Circuit breaker *)

(** The loop of [_cancel_all_orders] keeps the orders that are PLACED
    or PENDING, in the order of [open_orders]. *)
Lemma cancel_all_orders_spec (self : TradingEngine) :
  _cancel_all_orders self =
  map (fun entry : string * Order =>
         mkCancelIntent (fst entry) (market_id (_state self)) "cancel_all")
      (List.filter
         (fun entry : string * Order => cancellable (order_status (snd entry)))
         (open_orders (_state self))).
Proof.
  unfold _cancel_all_orders.
  induction (open_orders (_state self)) as [|[oid order] rest IH];
    [reflexivity|].
  cbn [flat_map List.filter map fst snd]. rewrite IH.
  destruct (order_status order); reflexivity.
Qed.

(** [halt] always ends in HALT. *)
Lemma halt_status self why now :
  status (_state (fst (halt self why now))) = HALT.
Proof.
  unfold halt. destruct (status (_state self)) eqn:Hst; simpl;
    solve [reflexivity | exact Hst].
Qed.

Lemma rejection_recorded_fields self oid why now :
  status (_state (rejection_recorded self oid why now)) = status (_state self)
  /\ market_id (_state (rejection_recorded self oid why now))
     = market_id (_state self)
  /\ consecutive_rejects (_state (rejection_recorded self oid why now))
     = (consecutive_rejects (_state self) + 1)%Z
  /\ _config (rejection_recorded self oid why now) = _config self.
Proof.
  unfold rejection_recorded. simpl.
  destruct (dict_get (open_orders (_state self)) oid); repeat split.
Qed.

Lemma on_order_rejected_unfold self oid why now :
  on_order_rejected self oid why now =
  fst (_check_circuit_breaker (rejection_recorded self oid why now) now).
Proof. reflexivity. Qed.

(** A breaker whose reject counter has reached its threshold halts. *)
Lemma check_circuit_breaker_trips self now :
  status (_state self) <> HALT ->
  (consecutive_rejects (_state self)
   >= max_consecutive_rejects (_config self))%Z ->
  exists why,
    _check_circuit_breaker self now = (fst (halt self why now), true).
Proof.
  intros Hst Hge. unfold _check_circuit_breaker.
  assert (Hgeb : (consecutive_rejects (_state self)
                  >=? max_consecutive_rejects (_config self))%Z = true)
    by (apply Z.geb_le; lia).
  rewrite Hgeb.
  destruct (status (_state self)) eqn:Hs; try (destruct (Hst eq_refl));
    destruct (consecutive_cancel_failures (_state self)
              >=? max_cancel_failures (_config self))%Z;
    eexists; reflexivity.
Qed.

(** C6, as amended: when [on_order_rejected] brings [consecutive_rejects]
    to [max_consecutive_rejects] or beyond on an engine that is not in
    HALT, the engine is taken to HALT by a call of [halt], and the list
    of cancel intents of that call holds one [CancelIntent] for each
    order of [open_orders] whose status is PENDING or PLACED, in the
    order of [open_orders], and nothing else. *)
Theorem rejects_trip_breaker_and_cancel_pending_placed
    (self : TradingEngine) (oid why : string) (now : Z) :
  status (_state self) <> HALT ->
  (consecutive_rejects (_state self) + 1
   >= max_consecutive_rejects (_config self))%Z ->
  let recorded := rejection_recorded self oid why now in
  let after := on_order_rejected self oid why now in
  status (_state after) = HALT
  /\ consecutive_rejects (_state after)
     = (consecutive_rejects (_state self) + 1)%Z
  /\ open_orders (_state after) = open_orders (_state recorded)
  /\ exists halt_reason,
       after = fst (halt recorded halt_reason now)
       /\ snd (halt recorded halt_reason now) =
          map (fun entry : string * Order =>
                 mkCancelIntent (fst entry) (market_id (_state self))
                   "cancel_all")
              (List.filter
                 (fun entry : string * Order =>
                    cancellable (order_status (snd entry)))
                 (open_orders (_state after))).
Proof.
  intros Hst Hge recorded after.
  destruct (rejection_recorded_fields self oid why now)
    as (Hrs & Hrm & Hrc & Hrcfg).
  fold recorded in Hrs, Hrm, Hrc, Hrcfg.
  assert (Hrst : status (_state recorded) <> HALT) by (rewrite Hrs; exact Hst).
  destruct (check_circuit_breaker_trips recorded now Hrst) as [r Hr].
  { rewrite Hrc, Hrcfg. exact Hge. }
  assert (Hafter : after = fst (halt recorded r now)).
  { subst after. rewrite on_order_rejected_unfold. fold recorded.
    rewrite Hr. reflexivity. }
  assert (Hhalt : halt recorded r now
                  = (_transition_to recorded HALT r now,
                     _cancel_all_orders (_transition_to recorded HALT r now))).
  { unfold halt.
    destruct (status (_state recorded)) eqn:Hs;
      try (destruct (Hrst eq_refl)); reflexivity. }
  rewrite Hafter, Hhalt. cbn [fst snd].
  split; [reflexivity|]. split; [exact Hrc|]. split; [reflexivity|].
  exists r. rewrite Hhalt. cbn [fst snd]. split; [reflexivity|].
  rewrite cancel_all_orders_spec.
  change (market_id (_state (_transition_to recorded HALT r now)))
    with (market_id (_state recorded)).
  rewrite Hrm. reflexivity.
Qed.

Lemma rejects_trip_breaker_witness :
  status (_state (on_order_rejected trader_two_rejects "x3" "insufficient" 3%Z))
  = HALT.
Proof.
  assert (Hst : status (_state trader_two_rejects) <> HALT)
    by (vm_compute; discriminate).
  assert (Hge : (consecutive_rejects (_state trader_two_rejects) + 1
                 >= max_consecutive_rejects (_config trader_two_rejects))%Z)
    by (vm_compute; discriminate).
  exact (proj1 (rejects_trip_breaker_and_cancel_pending_placed
                  trader_two_rejects "x3" "insufficient" 3%Z Hst Hge)).
Defined.

(** C6 as stated fails: after the third consecutive rejection the
    engine is in HALT, the orders [o2] (MATCHED) and [o3] (MINED) are
    open and non-terminal, and the cancel intents of the [halt] call
    name [o1] and [o4] only. *)
Lemma matched_and_mined_orders_not_cancelled :
  status (_state (on_order_rejected trader_two_rejects "x3" "insufficient" 3%Z))
  = HALT
  /\ on_order_rejected trader_two_rejects "x3" "insufficient" 3%Z
     = fst (halt (rejection_recorded trader_two_rejects "x3" "insufficient" 3%Z)
              "consecutive_rejects:3" 3%Z)
  /\ snd (halt (rejection_recorded trader_two_rejects "x3" "insufficient" 3%Z)
            "consecutive_rejects:3" 3%Z)
     = [ mkCancelIntent "o1" "mkt" "cancel_all";
         mkCancelIntent "o4" "mkt" "cancel_all" ]
  /\ map (fun entry : string * Order =>
            (fst entry, order_status (snd entry),
             non_terminal (order_status (snd entry))))
         (open_orders
            (_state (on_order_rejected trader_two_rejects "x3"
                       "insufficient" 3%Z)))
     = [ ("o1"%string, PLACED, true); ("o2"%string, MATCHED, true);
         ("o3"%string, MINED, true); ("o4"%string, PENDING, true) ].
Proof. vm_compute. repeat split. Qed.

(** *** Terminal states *)

(** C7 at failing inputs: for any engine, [resolve] gives RESOLVED and
    a following [halt] leaves it for HALT; [halt] gives HALT and a
    following [resolve] leaves it for RESOLVED, without any
    [resume_from_halt]. *)
Theorem resolved_and_halt_are_left
    (self : TradingEngine) (why : string) (now1 now2 : Z) :
  status (_state (resolve self now1)) = RESOLVED
  /\ status (_state (fst (halt (resolve self now1) why now2))) = HALT
  /\ status (_state (fst (halt self why now1))) = HALT
  /\ status (_state (resolve (fst (halt self why now1)) now2)) = RESOLVED.
Proof.
  split; [reflexivity|]. split; [reflexivity|].
  split; [apply halt_status|reflexivity].
Qed.

(** A resolved engine whose reject counter reaches the threshold is
    halted by the circuit breaker as well. *)
Example rejection_halts_resolved_engine :
  status (_state (resolve trader_two_rejects 3%Z)) = RESOLVED
  /\ status (_state (on_order_rejected (resolve trader_two_rejects 3%Z)
                       "x3" "insufficient" 4%Z)) = HALT.
Proof. vm_compute. split; reflexivity. Qed.

End TradingFacts.

(** ** More on the pair-position arithmetic *)

Section PairPositionMore.
Import Py Types Spec.
Local Open Scope float_scope.

(** A value above zero and at most one is at least zero: the price test
    of [apply_fill] holds for it. *)
Lemma le_zero_of_positive (p : float) :
  le p 0 = false -> le p 1 = true -> le 0 p = true.
Proof.
  unfold le. rewrite !FloatAxioms.leb_spec.
  change (Prim2SF 0) with (SpecFloat.S754_zero false).
  unfold SpecFloat.SFleb.
  destruct (Prim2SF p) as [s|s| |s m e]; try destruct s; cbn;
    try discriminate; try reflexivity.
Qed.

(** No value compares above infinity. *)
Lemma nothing_above_inf (x : float) : gt x inf = false.
Proof.
  unfold gt, inf. rewrite FloatAxioms.ltb_spec.
  change (Prim2SF infinity) with (SpecFloat.S754_infinity false).
  unfold SpecFloat.SFltb.
  destruct (Prim2SF x) as [s|s| |s m e]; try destruct s; reflexivity.
Qed.

(** X1: a fill of positive quantity at a price within [[0, 1]] is
    applied without error; it adds the quantity and [qty * price] to the
    leg of its side, leaves the other leg, the fee rate and the market
    alone, stamps [last_fill_at] and keeps an earlier [first_fill_at]. *)
Theorem apply_fill_valid_fill
    (pos : PairPosition) (fill : Fill) (now : Z) :
  le (fill_qty fill) 0 = false ->
  price_in_unit_interval (fill_price fill) = true ->
  let after := fst (apply_fill pos fill now) in
  snd (apply_fill pos fill now) = Ok tt
  /\ fee_rate after = fee_rate pos
  /\ market_id after = market_id pos
  /\ last_fill_at after = Some now
  /\ first_fill_at after = Some (default now (first_fill_at pos))
  /\ (fill_side fill = YES ->
      q_yes after = q_yes pos + fill_qty fill
      /\ c_yes after = c_yes pos + fill_qty fill * fill_price fill
      /\ q_no after = q_no pos /\ c_no after = c_no pos)
  /\ (fill_side fill = NO ->
      q_no after = q_no pos + fill_qty fill
      /\ c_no after = c_no pos + fill_qty fill * fill_price fill
      /\ q_yes after = q_yes pos /\ c_yes after = c_yes pos).
Proof.
  unfold price_in_unit_interval, apply_fill. intros -> ->. cbn [negb].
  destruct (fill_side fill), (first_fill_at pos); cbn;
    repeat split; intros; try discriminate; reflexivity.
Qed.

Lemma apply_fill_valid_fill_witness :
  q_yes (fst (apply_fill Examples.empty_position (Fill_of YES 100 0.45) 7%Z))
  = 100
  /\ c_yes (fst (apply_fill Examples.empty_position (Fill_of YES 100 0.45) 7%Z))
     = 45.
Proof.
  pose proof (apply_fill_valid_fill Examples.empty_position
                (Fill_of YES 100 0.45) 7%Z eq_refl eq_refl)
    as (_ & _ & _ & _ & _ & Hyes & _).
  destruct (Hyes eq_refl) as (Hq & Hc & _).
  split; [rewrite Hq|rewrite Hc]; vm_compute; reflexivity.
Defined.

(** The projection exists for every price of at most 1. *)
Lemma hypo_buy_ok (pos : PairPosition) (side : Side)
    (amount price : float) (now : Z) :
  le price 1 = true ->
  exists post, hypo_buy pos side amount price now = Ok post.
Proof.
  intros Hle. unfold hypo_buy. rewrite copy_id.
  destruct (le amount 0 || le price 0) eqn:Hguard; [eexists; reflexivity|].
  apply orb_false_iff in Hguard as [_ Hpos].
  unfold apply_fill. cbn [fill_qty fill_price fill_side Fill_of].
  destruct (le (amount / price) 0); [eexists; reflexivity|].
  rewrite (le_zero_of_positive price Hpos Hle), Hle. cbn [andb negb].
  destruct side; eexists; reflexivity.
Qed.



(** X3: for a price of at most 1, [should_buy_more] returns a decision
    and does not raise. *)
Theorem should_buy_more_decides_up_to_unit_price
    (pos : PairPosition) (side : Side) (amount price : float)
    (pair_cost_cap max_total_cost max_leg_imbalance : float)
    (require_improve : bool) (now : Z) :
  le price 1 = true ->
  exists decision,
    should_buy_more pos side amount price pair_cost_cap max_total_cost
      max_leg_imbalance require_improve now = Ok decision.
Proof.
  intros Hle. unfold should_buy_more.
  destruct (le amount 0); [eexists; reflexivity|].
  destruct (gt (total_cost pos + amount) max_total_cost);
    [eexists; reflexivity|].
  destruct (hypo_buy_ok pos side amount price now Hle) as [post ->].
  cbn [mbind result_bind bind].
  repeat match goal with
         | |- context [if ?b then _ else _] => destruct b
         end; eexists; reflexivity.
Qed.

Lemma should_buy_more_decides_up_to_unit_price_witness :
  exists decision,
    should_buy_more Examples.empty_position YES 25 0.48 0.975 1000 100 true 0%Z
    = Ok decision.
Proof.
  exact (should_buy_more_decides_up_to_unit_price Examples.empty_position
           YES 25 0.48 0.975 1000 100 true 0%Z eq_refl).
Defined.



(** X5: the flag and the reason agree: in every decision the buy is
    allowed exactly when the reason is ["approved"]. *)
Theorem should_buy_more_flag_matches_reason
    (pos : PairPosition) (side : Side) (amount price : float)
    (pair_cost_cap max_total_cost max_leg_imbalance : float)
    (require_improve : bool) (now : Z)
    (allowed : bool) (reason_code : string) :
  should_buy_more pos side amount price pair_cost_cap max_total_cost
    max_leg_imbalance require_improve now = Ok (allowed, reason_code) ->
  (allowed = true <-> reason_code = "approved"%string).
Proof.
  unfold should_buy_more.
  destruct (le amount 0); [intros [= <- <-]; split; discriminate|].
  destruct (gt (total_cost pos + amount) max_total_cost);
    [intros [= <- <-]; split; discriminate|].
  destruct (hypo_buy pos side amount price now) as [post|e]; [|discriminate].
  cbn [mbind result_bind bind].
  repeat match goal with
         | |- context [if ?b then _ else _] => destruct b
         end;
    intros [= <- <-]; split; intros H; solve [reflexivity | discriminate H].
Qed.

Lemma should_buy_more_flag_matches_reason_witness :
  false = true <-> "zero_amount"%string = "approved"%string.
Proof.
  exact (should_buy_more_flag_matches_reason Examples.empty_position YES 0 0.45
           0.975 1000 inf true 0%Z false "zero_amount" eq_refl).
Defined.

(** The walk of the levels returns its accumulators when no level it
    can reach is priced at zero. *)
Lemma walk_levels_ok (levels : list OrderBookLevel) :
  Forall (fun level => eq (level_price level) 0 = false) levels ->
  forall remaining total total_qty,
  exists out, walk_levels levels remaining total total_qty = Ok out.
Proof.
  induction 1 as [|level rest Hprice _ IH]; intros remaining total total_qty.
  - eexists; reflexivity.
  - cbn [walk_levels]. unfold truediv. rewrite Hprice.
    cbn [mbind result_bind bind].
    destruct (le _ 0); [eexists; reflexivity|apply IH].
Qed.

(** X6: [effective_price_for_size] divides by the price of each level it
    visits. It returns a price when no level of the side it walks (asks
    for YES, bids for NO) is priced at zero, and raises
    [ZeroDivisionError] when the first level of that side is. *)
Theorem effective_price_for_size_zero_price
    (book : OrderBook) (side : Side) (size_usdc : float) :
  let levels := if Side_eqb side YES then asks book else bids book in
  (Forall (fun level => eq (level_price level) 0 = false) levels ->
   exists p, effective_price_for_size book side size_usdc = Ok p)
  /\ (forall level rest,
        levels = level :: rest -> eq (level_price level) 0 = true ->
        effective_price_for_size book side size_usdc
        = Raise ZeroDivisionError).
Proof.
  cbv zeta. unfold effective_price_for_size. split.
  - intros Hall.
    destruct (walk_levels_ok _ Hall size_usdc 0 0) as [[[r c] q] ->].
    cbn [mbind result_bind bind]. destruct (eq q 0); eexists; reflexivity.
  - intros level rest -> Hzero. cbn [walk_levels]. unfold truediv.
    rewrite Hzero. reflexivity.
Qed.

(** X7: [spread_bps] never raises: its one division by a computed value
    is behind the test [mid == 0]; and there is no spread when a side of
    the book is empty. *)
Theorem spread_bps_never_raises (book : OrderBook) :
  (exists r, spread_bps book = Ok r)
  /\ (bids book = [] \/ asks book = [] -> spread_bps book = Ok None).
Proof.
  unfold spread_bps, mid_price, best_bid, best_ask, truediv. split.
  - destruct (bids book) as [|b ?]; [eexists; reflexivity|].
    destruct (asks book) as [|a ?]; [eexists; reflexivity|].
    destruct (eq _ 0); eexists; reflexivity.
  - intros [-> | ->]; [reflexivity|].
    destruct (bids book); reflexivity.
Qed.

End PairPositionMore.

(** ** [interfaces.py] against [src/domain/types.py] *)

Section InterfacesFacts.
Import Py.
Local Open Scope float_scope.

(** Swapping the operands of the IEEE comparison reverses its result. *)
Lemma SFcompare_antisym (x y : SpecFloat.spec_float) :
  SpecFloat.SFcompare y x = option_map CompOpp (SpecFloat.SFcompare x y).
Proof.
  destruct x as [s|s| |s m e], y as [s'|s'| |s' m' e'];
    try destruct s; try destruct s'; cbn; try reflexivity;
    rewrite (Z.compare_antisym e' e);
    destruct (e' ?= e)%Z; cbn; try reflexivity;
    change (Pos.compare_cont Eq m' m) with (Pos.compare m' m);
    change (Pos.compare_cont Eq m m') with (Pos.compare m m');
    rewrite (Pos.compare_antisym m' m);
    destruct (m' ?= m)%positive; reflexivity.
Qed.

(** A value strictly above another is not at or below it. *)
Lemma gt_not_le (a b : float) : gt a b = true -> le a b = false.
Proof.
  unfold gt, le. rewrite FloatAxioms.ltb_spec, FloatAxioms.leb_spec.
  unfold SpecFloat.SFltb, SpecFloat.SFleb.
  rewrite (SFcompare_antisym (Prim2SF b) (Prim2SF a)).
  destruct (SpecFloat.SFcompare (Prim2SF b) (Prim2SF a)) as [[ | | ]|];
    cbn; congruence.
Qed.

(** [apply_fill] of the two files does the same to the quantities and
    costs. *)
Lemma interfaces_apply_fill_sim (pos : Types.PairPosition)
    (side : Types.Side) (qty price : float) (ts now : Z) :
  Interfaces.apply_fill (Interfaces.of_types pos)
    (Interfaces.mkFill side qty price ts)
  = (Interfaces.of_types
       (fst (Types.apply_fill pos (Types.Fill_of side qty price) now)),
     snd (Types.apply_fill pos (Types.Fill_of side qty price) now)).
Proof.
  unfold Interfaces.apply_fill, Types.apply_fill. cbn -[le].
  destruct (le qty 0); [reflexivity|].
  destruct (negb _); [reflexivity|].
  destruct side; reflexivity.
Qed.

Lemma interfaces_hypo_buy_sim (pos : Types.PairPosition)
    (side : Types.Side) (amount price : float) (now : Z) :
  Interfaces.hypo_buy (Interfaces.of_types pos) side amount price
  = match Types.hypo_buy pos side amount price now with
    | Ok post => Ok (Interfaces.of_types post)
    | Raise e => Raise e
    end.
Proof.
  unfold Interfaces.hypo_buy, Types.hypo_buy.
  destruct (le amount 0); [reflexivity|].
  destruct (le price 0); [reflexivity|]. cbn [orb].
  change (Interfaces.copy (Interfaces.of_types pos))
    with (Interfaces.of_types (Types.copy pos)).
  rewrite (interfaces_apply_fill_sim (Types.copy pos) side _ price 0 now).
  destruct (Types.apply_fill (Types.copy pos) _ now) as [post [[]|e]];
    reflexivity.
Qed.

(** X8: the buy rule of [interfaces.py] is at least as strict as the
    one of [src/domain/types.py] run without an imbalance limit: a buy
    the former approves is approved by the latter, and the former raises
    exactly when the latter does. *)
Theorem interfaces_should_buy_more_refines
    (pos : Types.PairPosition) (side : Types.Side) (amount price : float)
    (pair_cost_cap max_total_cost : float) (require_improve : bool)
    (now : Z) :
  (Interfaces.should_buy_more (Interfaces.of_types pos) side amount price
     pair_cost_cap max_total_cost require_improve = Ok true ->
   Types.should_buy_more pos side amount price pair_cost_cap max_total_cost
     inf require_improve now = Ok (true, "approved"%string))
  /\ (forall e,
        Interfaces.should_buy_more (Interfaces.of_types pos) side amount
          price pair_cost_cap max_total_cost require_improve = Raise e
        <-> Types.should_buy_more pos side amount price pair_cost_cap
              max_total_cost inf require_improve now = Raise e).
Proof.
  unfold Interfaces.should_buy_more, Types.should_buy_more.
  change (Interfaces.total_cost (Interfaces.of_types pos))
    with (Types.total_cost pos).
  change (Interfaces.guaranteed_pnl (Interfaces.of_types pos))
    with (Types.guaranteed_pnl pos).
  rewrite (interfaces_hypo_buy_sim pos side amount price now).
  destruct (le amount 0); [split; [discriminate|split; discriminate]|].
  destruct (gt (Types.total_cost pos + amount) max_total_cost);
    [split; [discriminate|split; discriminate]|].
  destruct (Types.hypo_buy pos side amount price now) as [post|e'];
    cbn [mbind result_bind bind];
    [|split; [discriminate|intros e; split; intros [= ->]; reflexivity]].
  change (Interfaces.pair_cost_avg (Interfaces.of_types post))
    with (Types.pair_cost_avg post).
  change (Interfaces.fee_rate (Interfaces.of_types post))
    with (Types.fee_rate post).
  change (Interfaces.guaranteed_pnl (Interfaces.of_types post))
    with (Types.guaranteed_pnl post).
  rewrite (nothing_above_inf (Types.leg_imbalance_usdc post)).
  destruct (match Types.pair_cost_avg post with
            | Some c => ge c (1 - Types.fee_rate post)
            | None => false
            end); [split; [discriminate|split; discriminate]|].
  destruct (match Types.pair_cost_avg post with
            | Some c => ge c pair_cost_cap
            | None => false
            end); [split; [discriminate|split; discriminate]|].
  destruct require_improve; cbn [andb];
    [|split; [reflexivity|split; discriminate]].
  split.
  - intros [= Hgt]. rewrite (gt_not_le _ _ Hgt). reflexivity.
  - intros e.
    destruct (le (Types.guaranteed_pnl post) (Types.guaranteed_pnl pos));
      split; discriminate.
Qed.

End InterfacesFacts.
